(** * Tubely upload handlers: a shallow embedding

    The development embeds the four upload handlers of the repository

      - [handlerUploadVideo] of [src/api/videos.ts], which uploads the file
        as it came;
      - the later [handlerUploadVideo], which probes and remuxes first, with
        its helpers [getVideoAspectRatio] and [processVideoForFastStart];
      - [handlerUploadThumbnail] writing to the asset directory;
      - the earlier [handlerUploadThumbnail] keeping thumbnails in a
        module-level map, with the [handlerGetThumbnail] that serves them;

    as computations in a state, log and exception monad over a world made of
    the record store, the local disk, the bucket and the module-level
    thumbnail map.  JavaScript numbers that are divided or compared against
    fractional literals are binary64 floats; sizes are integers. *)

From Stdlib Require Import ZArith Floats Ascii String List Lia.
From stdpp Require Import gmap strings list.

Local Open Scope Z_scope.
Local Open Scope string_scope.
Local Open Scope list_scope.

(** ** JavaScript primitives used by the handlers *)

(** [a << b] on numbers: the left operand is taken as a signed 32-bit
    integer, the shift count modulo 32, and the result wraps to 32 bits. *)
Definition wrap32 (z : Z) : Z := (z + 2 ^ 31) mod 2 ^ 32 - 2 ^ 31.

Definition js_shl (a b : Z) : Z := wrap32 (Z.shiftl (wrap32 a) (b mod 32)).

(** Truthiness of a string: only the empty string is falsy. *)
Definition truthy_string (s : string) : bool :=
  match s with EmptyString => false | String _ _ => true end.

(** Truthiness of a [number | undefined]: [undefined], [0], [-0] and [NaN]
    are falsy.  [PrimFloat.eqb] is IEEE equality, so it identifies the two
    zeros and separates [NaN] from itself. *)
Definition truthy_number (x : option float) : bool :=
  match x with
  | None => false
  | Some f => negb (PrimFloat.eqb f 0%float) && PrimFloat.eqb f f
  end.

(** [Array.prototype.includes] on an array of strings. *)
Fixpoint includes (l : list string) (x : string) : bool :=
  match l with
  | [] => false
  | y :: l' => String.eqb y x || includes l' x
  end.

(** [String.prototype.split] with a one-character separator. *)
Fixpoint split_on (sep : ascii) (s : string) : list string :=
  match s with
  | EmptyString => [EmptyString]
  | String c s' =>
      if Ascii.eqb c sep then EmptyString :: split_on sep s'
      else match split_on sep s' with
           | [] => [String c EmptyString]
           | p :: ps => String c p :: ps
           end
  end.

(** A value interpolated in a template literal; an out-of-range array read
    is [undefined] and prints as such. *)
Definition interpolate (x : option string) : string :=
  match x with Some s => s | None => "undefined" end.

(** [Buffer.prototype.toString("hex")]: two lower-case digits per byte. *)
Definition hex_digit (n : N) : ascii :=
  match n with
  | 0 => "0" | 1 => "1" | 2 => "2" | 3 => "3" | 4 => "4" | 5 => "5"
  | 6 => "6" | 7 => "7" | 8 => "8" | 9 => "9" | 10 => "a" | 11 => "b"
  | 12 => "c" | 13 => "d" | 14 => "e" | _ => "f"
  end%N%char.

Fixpoint to_hex (bs : list Byte.byte) : string :=
  match bs with
  | [] => EmptyString
  | b :: bs' =>
      let n := Byte.to_N b in
      String (hex_digit (n / 16)) (String (hex_digit (n mod 16)) (to_hex bs'))
  end.

(** [Buffer.prototype.toString("base64url")]: the URL-safe alphabet, no
    padding. *)
Definition b64url_digit (n : N) : ascii :=
  if (n <? 26)%N then ascii_of_N (65 + n)
  else if (n <? 52)%N then ascii_of_N (97 + (n - 26))
  else if (n <? 62)%N then ascii_of_N (48 + (n - 52))
  else if (n =? 62)%N then "-"%char
  else "_"%char.

Fixpoint to_base64url (bs : list Byte.byte) : string :=
  match bs with
  | [] => EmptyString
  | [a] =>
      let x := Byte.to_N a in
      String (b64url_digit (x / 4))
        (String (b64url_digit ((x mod 4) * 16)) EmptyString)
  | [a; b] =>
      let x := Byte.to_N a in
      let y := Byte.to_N b in
      String (b64url_digit (x / 4))
        (String (b64url_digit ((x mod 4) * 16 + y / 16))
           (String (b64url_digit ((y mod 16) * 4)) EmptyString))
  | a :: b :: c :: bs' =>
      let x := Byte.to_N a in
      let y := Byte.to_N b in
      let z := Byte.to_N c in
      String (b64url_digit (x / 4))
        (String (b64url_digit ((x mod 4) * 16 + y / 16))
           (String (b64url_digit ((y mod 16) * 4 + z / 64))
              (String (b64url_digit (z mod 64)) (to_base64url bs'))))
  end.

(** ** Data model *)

(** Modelled from the spec: the [Video] type of [db/videos] is not part of
    the sources.  The record has an identifier, the owning user, title,
    description, creation timestamp and the two nullable media URLs. *)
Record Video := mkVideo {
  id : string;
  userID : string;
  title : string;
  description : string;
  createdAt : string;
  thumbnailURL : option string;
  videoURL : option string;
}.

(** [video.thumbnailURL = url] and [video.videoURL = url] on the object the
    handler got from [getVideo]. *)
Definition set_thumbnailURL (v : Video) (url : string) : Video :=
  mkVideo (id v) (userID v) (title v) (description v) (createdAt v)
          (Some url) (videoURL v).

Definition set_videoURL (v : Video) (url : string) : Video :=
  mkVideo (id v) (userID v) (title v) (description v) (createdAt v)
          (thumbnailURL v) (Some url).

(** A [File] of a multipart form.  [file_size] and [file_type] are what the
    client declared; [file_data] is what [arrayBuffer()] resolves to. *)
Record File := mkFile {
  file_name : string;
  file_type : string;
  file_size : Z;
  file_data : list Byte.byte;
}.

Inductive FormDataEntryValue :=
| FormString (s : string)
| FormFile (f : File).

(** [FormData.prototype.get]: the first entry of that name, or [null]. *)
Fixpoint form_get (fd : list (string * FormDataEntryValue)) (name : string)
  : option FormDataEntryValue :=
  match fd with
  | [] => None
  | (k, v) :: fd' => if String.eqb k name then Some v else form_get fd' name
  end.

(** [x instanceof File] on the result of [form_get]. *)
Definition as_File (x : option FormDataEntryValue) : option File :=
  match x with Some (FormFile f) => Some f | _ => None end.

Record BunRequest := mkRequest {
  params_videoId : option string;
  headers : list (string * string);
  formData : list (string * FormDataEntryValue);
}.

(** Modelled from the spec: [ApiConfig] is declared in [config], outside the
    sources.  It provides the asset directory, the JWT secret, the HTTP
    port, the bucket name and the region; the database and the S3 client
    handles it carries denote the [db] and [bucket] components of the world
    below. *)
Record ApiConfig := mkConfig {
  jwtSecret : string;
  assetsRoot : string;
  port : string;
  s3Bucket : string;
  s3Region : string;
}.

Record Thumbnail := mkThumbnail {
  data : list Byte.byte;
  mediaType : string;
}.

Record S3Object := mkS3Object {
  s3_body : list Byte.byte;
  s3_type : string;
}.

(** The [StreamInfo] the probe prints, restricted to the two fields that are
    read; a stream without a dimension has it [undefined]. *)
Record Stream := mkStream {
  width : option float;
  height : option float;
}.

Record StreamInfo := mkStreamInfo {
  streams : list Stream;
}.

Inductive AspectRatio := Landscape | Portrait | Other.

Definition AspectRatio_to_string (a : AspectRatio) : string :=
  match a with
  | Landscape => "landscape"
  | Portrait => "portrait"
  | Other => "other"
  end.

(** ** Errors *)

Inductive error :=
| BadRequestError (msg : string)
| UserNotAuthenticatedError (msg : string)
| UserForbiddenError (msg : string)
| NotFoundError (msg : string)
| Error (msg : string)
| TypeError
| Rejected (what : string).

(** The error kinds of the error-translation layer. *)
Inductive kind :=
| InvalidRequest | Unauthenticated | Forbidden | NotFound | Internal.

Definition kind_of (e : error) : kind :=
  match e with
  | BadRequestError _ => InvalidRequest
  | UserNotAuthenticatedError _ => Unauthenticated
  | UserForbiddenError _ => Forbidden
  | NotFoundError _ => NotFound
  | Error _ | TypeError | Rejected _ => Internal
  end.

Inductive result (A : Type) :=
| Ok (a : A)
| Err (e : error).
Arguments Ok {A} a.
Arguments Err {A} e.

(** ** The world the handlers act on *)

(** Modelled from the spec: the record store of [db/videos] is not part of
    the sources.  It is a relational table of [Video] rows;
    [getVideo(db, id)] yields the record with that identifier or nothing,
    [updateVideo(db, record)] persists the full record over the row that has
    its identifier. *)
Definition find_video (tbl : list Video) (vid : string) : option Video :=
  List.find (fun r => String.eqb (id r) vid) tbl.

Definition replace_video (tbl : list Video) (v : Video) : list Video :=
  List.map (fun r => if String.eqb (id r) (id v) then v else r) tbl.

Record World := mkWorld {
  db : list Video;
  disk : gmap string (list Byte.byte);
  bucket : gmap string S3Object;
  videoThumbnails : gmap string Thumbnail;
}.

(** What a handler does to the outside, in the order it does it. *)
Inductive Event :=
| EvBunWrite (path : string)
| EvSpawn (cmd : list string)
| EvS3Write (key ty : string)
| EvDelete (path : string)
| EvThumbnailSet (vid : string)
| EvUpdateVideo (v : Video).

(** A finished child process: exit code, standard output read as JSON,
    standard error read as text, and the files it left behind. *)
Record Subprocess := mkSubprocess {
  exitCode : Z;
  stdout_json : StreamInfo;
  stderr_text : string;
  created : list (string * list Byte.byte);
}.

(** Calls into the runtime whose promise may reject. *)
Inductive Call :=
| CallBunWrite (path : string)
| CallS3Write (key : string)
| CallDelete (path : string)
| CallUpdateVideo (vid : string).

(** Everything a request cannot control: the random source, what the
    external tools do on the current disk, and which runtime calls fail. *)
Record Env := mkEnv {
  entropy : nat -> Byte.byte;
  spawn : list string -> gmap string (list Byte.byte) -> Subprocess;
  rejects : Call -> bool;
}.

(** Imports of the handlers that are neither in the sources nor described
    beyond their contract: the two functions of [auth], which yield a value
    or throw, and [path.join]. *)
Class Collaborators := {
  getBearerToken : list (string * string) -> result string;
  validateJWT : string -> string -> result string;
  path_join : string -> string -> string;
}.

(** ** The handler monad: environment, world, event log, exceptions *)

Definition M (A : Type) : Type :=
  Env -> World -> result A * World * list Event.

Global Instance M_ret : MRet M := fun A a _ w => (Ok a, w, []).

Global Instance M_bind : MBind M := fun A B k c env w =>
  match c env w with
  | (Ok a, w1, l1) =>
      match k a env w1 with
      | (r, w2, l2) => (r, w2, l1 ++ l2)
      end
  | (Err e, w1, l1) => (Err e, w1, l1)
  end.

Definition throw {A} (e : error) : M A := fun _ w => (Err e, w, []).

Definition lift {A} (r : result A) : M A := fun _ w => (r, w, []).

Definition emit (ev : Event) : M unit := fun _ w => (Ok tt, w, [ev]).

Definition ask_rejects (c : Call) : M bool :=
  fun env w => (Ok (rejects env c), w, []).

Definition get_world : M World := fun _ w => (Ok w, w, []).

Definition put_world (w : World) : M unit := fun _ _ => (Ok tt, w, []).

(** [if (c) throw e]. *)
Definition throw_if {A} (c : bool) (e : error) (k : M A) : M A :=
  if c then throw e else k.

(** ** Runtime and collaborator calls *)

Definition randomBytes (n : nat) : M (list Byte.byte) :=
  fun env w => (Ok (List.map (entropy env) (seq 0 n)), w, []).

Definition getVideo (vid : string) : M (option Video) :=
  w ← get_world; mret (find_video (db w) vid).

Definition updateVideo (v : Video) : M unit :=
  emit (EvUpdateVideo v);;
  r ← ask_rejects (CallUpdateVideo (id v));
  throw_if r (Rejected "updateVideo")
    (w ← get_world;
     put_world (mkWorld (replace_video (db w) v) (disk w) (bucket w)
                        (videoThumbnails w))).

(** [Bun.write(Bun.file(path), buffer)]. *)
Definition Bun_write (path : string) (buffer : list Byte.byte) : M unit :=
  emit (EvBunWrite path);;
  r ← ask_rejects (CallBunWrite path);
  throw_if r (Rejected "Bun.write")
    (w ← get_world;
     put_world (mkWorld (db w) (<[path := buffer]> (disk w)) (bucket w)
                        (videoThumbnails w))).

(** [Bun.file(path).delete()]. *)
Definition Bun_delete (path : string) : M unit :=
  emit (EvDelete path);;
  r ← ask_rejects (CallDelete path);
  throw_if r (Rejected "delete")
    (w ← get_world;
     put_world (mkWorld (db w) (delete path (disk w)) (bucket w)
                        (videoThumbnails w))).

(** [cfg.s3Client.file(key).write(Bun.file(path), { type })]: the body is
    what the local file holds at that moment. *)
Definition s3_write (key path ty : string) : M unit :=
  emit (EvS3Write key ty);;
  r ← ask_rejects (CallS3Write key);
  w ← get_world;
  match disk w !! path with
  | None => throw (Rejected "s3.write")
  | Some body =>
      throw_if r (Rejected "s3.write")
        (put_world (mkWorld (db w) (disk w)
                            (<[key := mkS3Object body ty]> (bucket w))
                            (videoThumbnails w)))
  end.

(** [Bun.spawn({ cmd })] followed by [await proc.exited]. *)
Definition run_process (cmd : list string) : M Subprocess :=
  fun env w =>
    let p := spawn env cmd (disk w) in
    (Ok p,
     mkWorld (db w)
             (fold_right (fun kv d => <[kv.1 := kv.2]> d) (disk w) (created p))
             (bucket w) (videoThumbnails w),
     []).

Definition Bun_spawn (cmd : list string) : M Subprocess :=
  emit (EvSpawn cmd);; run_process cmd.

(** [videoThumbnails.set(key, value)]. *)
Definition videoThumbnails_set (key : string) (t : Thumbnail) : M unit :=
  emit (EvThumbnailSet key);;
  w ← get_world;
  put_world (mkWorld (db w) (disk w) (bucket w)
                     (<[key := t]> (videoThumbnails w))).

(** [videoThumbnails.get(key)]. *)
Definition videoThumbnails_get (key : string) : M (option Thumbnail) :=
  w ← get_world; mret (videoThumbnails w !! key).

(** [new Response(body, { headers })]: the status defaults to 200. *)
Record RawResponse := mkRawResponse {
  raw_status : Z;
  raw_body : list Byte.byte;
  raw_headers : list (string * string);
}.

(** [respondWithJSON(status, payload)], before serialisation. *)
Record Response := mkResponse {
  status : Z;
  body : option Video;
}.

Definition respondWithJSON (st : Z) (payload : option Video) : M Response :=
  mret (mkResponse st payload).

(** ** [src/api/videos.ts]: the video handler that uploads the file as is *)

Module VideosDirect.
Section Handlers.
Context `{Collaborators}.

(** [1 << 30]. *)
Definition MAX_UPLOAD_SIZE : Z := js_shl 1 30.

Definition handlerUploadVideo (cfg : ApiConfig) (req : BunRequest)
  : M Response :=
  match params_videoId req with
  | None => throw (BadRequestError "Invalid video ID")
  | Some videoId =>
  throw_if (negb (truthy_string videoId))
    (BadRequestError "Invalid video ID") (
  token ← lift (getBearerToken (headers req));
  user ← lift (validateJWT token (jwtSecret cfg));
  found ← getVideo videoId;
  match found with
  | None => throw (BadRequestError "Video not found")
  | Some video =>
  throw_if (negb (String.eqb (userID video) user))
    (UserForbiddenError "Forbidden") (
  match as_File (form_get (formData req) "video") with
  | None => throw (BadRequestError "Video file missing")
  | Some videoFile =>
  throw_if (file_size videoFile >? MAX_UPLOAD_SIZE)
    (BadRequestError "File too large") (
  let ty := file_type videoFile in
  throw_if (negb (String.eqb ty "video/mp4"))
    (BadRequestError "Unsupported file type") (
  let ext := ".mp4" in
  rnd ← randomBytes 32;
  let fileName := to_hex rnd +:+ ext in
  let buffer := file_data videoFile in
  let file := path_join (assetsRoot cfg) fileName in
  Bun_write file buffer;;
  s3_write fileName file ty;;
  Bun_delete file;;
  let video' :=
    set_videoURL video
      ("https://" +:+ s3Bucket cfg +:+ ".s3." +:+ s3Region cfg
         +:+ ".amazonaws.com/" +:+ fileName) in
  updateVideo video';;
  updatedVideo ← getVideo videoId;
  respondWithJSON 200 updatedVideo))
  end)
  end)
  end.
End Handlers.
End VideosDirect.

(** ** The later video handler: probe, remux, upload under the aspect ratio *)

Module Videos.
Section Handlers.
Context `{Collaborators}.

(** [1 << 30]. *)
Definition MAX_UPLOAD_SIZE : Z := js_shl 1 30.

(** The [switch (true)] at the end of [getVideoAspectRatio]. *)
#[warnings="-inexact-float"]
Definition classify (aspectRatio : float) : AspectRatio :=
  if (1.7 <=? aspectRatio)%float then Landscape
  else if (aspectRatio <=? 0.6)%float then Portrait
  else Other.

(** A [number | undefined] as an operand of [/]: [undefined] becomes
    [NaN]. *)
Definition to_number (x : option float) : float :=
  match x with Some f => f | None => nan end.

Definition getVideoAspectRatio (filePath : string) : M AspectRatio :=
  proc ← Bun_spawn ["ffprobe"; "-v"; "error"; "-select_streams"; "v:0";
                    "-show_entries"; "stream=width,height"; "-of"; "json";
                    "-show_streams"; filePath];
  throw_if (negb (exitCode proc =? 0)%Z)
    (Error ("Failed to get video info: " +:+ stderr_text proc)) (
  let output := stdout_json proc in
  match streams output with
  | [] => throw TypeError
  | stream0 :: _ =>
      let height := height stream0 in
      let width := width stream0 in
      throw_if (negb (truthy_number height) || negb (truthy_number width))
        (Error "Failed to get video dimensions") (
      let aspectRatio := (to_number width / to_number height)%float in
      mret (classify aspectRatio))
  end).

Definition processVideoForFastStart (inputFilePath : string) : M string :=
  let outputFilePath := inputFilePath +:+ ".processed" in
  proc ← Bun_spawn ["ffmpeg"; "-i"; inputFilePath; "-movflags"; "faststart";
                    "-map_metadata"; "0"; "-codec"; "copy"; "-f"; "mp4";
                    outputFilePath];
  throw_if (negb (exitCode proc =? 0)%Z)
    (Error ("Failed to process video: " +:+ stderr_text proc))
    (mret outputFilePath).

Definition handlerUploadVideo (cfg : ApiConfig) (req : BunRequest)
  : M Response :=
  match params_videoId req with
  | None => throw (BadRequestError "Invalid video ID")
  | Some videoId =>
  throw_if (negb (truthy_string videoId))
    (BadRequestError "Invalid video ID") (
  token ← lift (getBearerToken (headers req));
  user ← lift (validateJWT token (jwtSecret cfg));
  found ← getVideo videoId;
  match found with
  | None => throw (BadRequestError "Video not found")
  | Some video =>
  throw_if (negb (String.eqb (userID video) user))
    (UserForbiddenError "Forbidden") (
  match as_File (form_get (formData req) "video") with
  | None => throw (BadRequestError "Video file missing")
  | Some videoFile =>
  throw_if (file_size videoFile >? MAX_UPLOAD_SIZE)
    (BadRequestError "File too large") (
  let ty := file_type videoFile in
  throw_if (negb (String.eqb ty "video/mp4"))
    (BadRequestError "Unsupported file type") (
  let ext := ".mp4" in
  rnd ← randomBytes 32;
  let fileName := to_hex rnd +:+ ext in
  let buffer := file_data videoFile in
  let filePath := path_join (assetsRoot cfg) fileName in
  Bun_write filePath buffer;;
  aspectRatio ← getVideoAspectRatio filePath;
  processedFilePath ← processVideoForFastStart filePath;
  s3_write (AspectRatio_to_string aspectRatio +:+ "/" +:+ fileName)
           processedFilePath ty;;
  Bun_delete filePath;;
  Bun_delete processedFilePath;;
  let video' :=
    set_videoURL video
      ("https://" +:+ s3Bucket cfg +:+ ".s3." +:+ s3Region cfg
         +:+ ".amazonaws.com/" +:+ AspectRatio_to_string aspectRatio
         +:+ "/" +:+ fileName) in
  updateVideo video';;
  updatedVideo ← getVideo videoId;
  respondWithJSON 200 updatedVideo))
  end)
  end)
  end.
End Handlers.
End Videos.

(** ** The thumbnail handler that writes to the asset directory *)

Module ThumbnailsDisk.
Section Handlers.
Context `{Collaborators}.

(** [10 << 20]. *)
Definition MAX_UPLOAD_SIZE : Z := js_shl 10 20.

Definition handlerUploadThumbnail (cfg : ApiConfig) (req : BunRequest)
  : M Response :=
  match params_videoId req with
  | None => throw (BadRequestError "Invalid video ID")
  | Some videoId =>
  throw_if (negb (truthy_string videoId))
    (BadRequestError "Invalid video ID") (
  token ← lift (getBearerToken (headers req));
  user ← lift (validateJWT token (jwtSecret cfg));
  match as_File (form_get (formData req) "thumbnail") with
  | None => throw (BadRequestError "Thumbnail file missing")
  | Some thumbnail =>
  throw_if (file_size thumbnail >? MAX_UPLOAD_SIZE)
    (BadRequestError "File too large") (
  throw_if (negb (includes ["image/png"; "image/jpeg"] (file_type thumbnail)))
    (BadRequestError ("Unsupported file type: " +:+ file_type thumbnail)) (
  let ty := interpolate (split_on "/" (file_type thumbnail) !! 1%nat) in
  let buffer := file_data thumbnail in
  found ← getVideo videoId;
  match found with
  | None => throw (NotFoundError "Video not found")
  | Some video =>
  throw_if (negb (String.eqb (userID video) user))
    (UserForbiddenError "Forbidden") (
  rnd ← randomBytes 32;
  let fileName := to_base64url rnd in
  let file := path_join (assetsRoot cfg) (fileName +:+ "." +:+ ty) in
  Bun_write file buffer;;
  let thumbnailUrl :=
    "http://localhost:8091/assets/" +:+ fileName +:+ "." +:+ ty in
  let video' := set_thumbnailURL video thumbnailUrl in
  updateVideo video';;
  updatedVideo ← getVideo (id video');
  respondWithJSON 200 updatedVideo)
  end))
  end)
  end.
End Handlers.
End ThumbnailsDisk.

(** ** The earlier thumbnail handler that keeps the bytes in memory *)

Module ThumbnailsMemory.
Section Handlers.
Context `{Collaborators}.

Definition handlerGetThumbnail (cfg : ApiConfig) (req : BunRequest)
  : M RawResponse :=
  match params_videoId req with
  | None => throw (BadRequestError "Invalid video ID")
  | Some videoId =>
  throw_if (negb (truthy_string videoId))
    (BadRequestError "Invalid video ID") (
  found ← getVideo videoId;
  match found with
  | None => throw (NotFoundError "Couldn't find video")
  | Some video =>
  cached ← videoThumbnails_get videoId;
  match cached with
  | None => throw (NotFoundError "Thumbnail not found")
  | Some thumbnail =>
  mret (mkRawResponse 200 (data thumbnail)
          [("Content-Type", mediaType thumbnail);
           ("Cache-Control", "no-store")])
  end
  end)
  end.

(** [10 << 20]. *)
Definition MAX_UPLOAD_SIZE : Z := js_shl 10 20.

Definition handlerUploadThumbnail (cfg : ApiConfig) (req : BunRequest)
  : M Response :=
  match params_videoId req with
  | None => throw (BadRequestError "Invalid video ID")
  | Some videoId =>
  throw_if (negb (truthy_string videoId))
    (BadRequestError "Invalid video ID") (
  token ← lift (getBearerToken (headers req));
  user ← lift (validateJWT token (jwtSecret cfg));
  match as_File (form_get (formData req) "thumbnail") with
  | None => throw (BadRequestError "Thumbnail file missing")
  | Some thumbnail =>
  throw_if (file_size thumbnail >? MAX_UPLOAD_SIZE)
    (BadRequestError "File too large") (
  let ty := file_type thumbnail in
  let buffer := file_data thumbnail in
  found ← getVideo videoId;
  match found with
  | None => throw (NotFoundError "Video not found")
  | Some video =>
  throw_if (negb (String.eqb (userID video) user))
    (UserForbiddenError "Forbidden") (
  videoThumbnails_set (id video) (mkThumbnail buffer ty);;
  let thumbnailUrl :=
    "http://localhost:" +:+ port cfg +:+ "/api/thumbnails/" +:+ id video in
  let video' := set_thumbnailURL video thumbnailUrl in
  updateVideo video';;
  updatedVideo ← getVideo (id video');
  respondWithJSON 200 updatedVideo)
  end)
  end)
  end.
End Handlers.
End ThumbnailsMemory.

(** ** Vocabulary of the properties *)

(** The four upload handlers of the repository. *)
Definition upload_handlers `{Collaborators}
  : list (ApiConfig -> BunRequest -> M Response) :=
  [VideosDirect.handlerUploadVideo; Videos.handlerUploadVideo;
   ThumbnailsDisk.handlerUploadThumbnail;
   ThumbnailsMemory.handlerUploadThumbnail].

Definition video_handlers `{Collaborators}
  : list (ApiConfig -> BunRequest -> M Response) :=
  [VideosDirect.handlerUploadVideo; Videos.handlerUploadVideo].

Definition thumbnail_handlers `{Collaborators}
  : list (ApiConfig -> BunRequest -> M Response) :=
  [ThumbnailsDisk.handlerUploadThumbnail;
   ThumbnailsMemory.handlerUploadThumbnail].

(** The request names video [vid] and carries a bearer token that validates
    to [user]. *)
Definition authenticated `{Collaborators} (cfg : ApiConfig) (req : BunRequest)
    (vid user : string) : Prop :=
  params_videoId req = Some vid /\ truthy_string vid = true /\
  exists token, getBearerToken (headers req) = Ok token /\
                validateJWT token (jwtSecret cfg) = Ok user.

(** The multipart form has a file under [field]. *)
Definition carries (req : BunRequest) (field : string) (f : File) : Prop :=
  as_File (form_get (formData req) field) = Some f.

(** Calls of [updateVideo] and deletions of local files in an event log. *)
Definition is_update (ev : Event) : bool :=
  match ev with EvUpdateVideo _ => true | _ => false end.

Definition is_delete (ev : Event) : bool :=
  match ev with EvDelete _ => true | _ => false end.

(** A run as a predicate on its outcome. *)
Definition wp {A} (c : M A) (env : Env) (w : World)
    (Q : result A -> World -> list Event -> Prop) : Prop :=
  Q (c env w).1.1 (c env w).1.2 (c env w).2.

(** ** A small deployment for the examples *)

Fixpoint strip_prefix (p s : string) : option string :=
  match p, s with
  | EmptyString, _ => Some s
  | String a p', String b s' =>
      if Ascii.eqb a b then strip_prefix p' s' else None
  | String _ _, EmptyString => None
  end.

(** Stand-ins for [auth] and [path.join]: the token is what follows
    [Bearer ] in the [Authorization] header, and a token [secret:user]
    validates to [user]. *)
Definition demo_collaborators : Collaborators := {|
  getBearerToken hs :=
    match List.find (fun kv => String.eqb kv.1 "Authorization") hs with
    | Some (_, v) =>
        match strip_prefix "Bearer " v with
        | Some t => Ok t
        | None => Err (BadRequestError "Malformed authorization header")
        end
    | None => Err (BadRequestError "Malformed authorization header")
    end;
  validateJWT tok secret :=
    match strip_prefix (secret +:+ ":") tok with
    | Some u => Ok u
    | None => Err (UserNotAuthenticatedError "Invalid token")
    end;
  path_join a b := a +:+ "/" +:+ b;
|}.

Definition demo_cfg : ApiConfig :=
  mkConfig "hunter2" "/srv/assets" "3000" "tubely" "us-east-2".

Definition demo_video : Video :=
  mkVideo "V" "U1" "Boots" "A bear" "2025-01-01" None None.

Definition demo_world : World := mkWorld [demo_video] ∅ ∅ ∅.

(** The probe reports a [wd] by [ht] stream; the remux exits with
    [remux_exit] and, when that is [0], leaves its output file. *)
Definition demo_spawn (wd ht : float) (remux_exit : Z) (cmd : list string)
    (d : gmap string (list Byte.byte)) : Subprocess :=
  match cmd with
  | "ffprobe" :: _ =>
      mkSubprocess 0 (mkStreamInfo [mkStream (Some wd) (Some ht)]) "" []
  | "ffmpeg" :: _ =>
      mkSubprocess remux_exit (mkStreamInfo []) "moov atom not found"
        (if (remux_exit =? 0)%Z
         then [(default "" (last cmd),
                [Byte.x66; Byte.x74; Byte.x79; Byte.x70])]
         else [])
  | _ => mkSubprocess 127 (mkStreamInfo []) "command not found" []
  end.

Definition demo_env_with (wd ht : float) (remux_exit : Z) : Env :=
  mkEnv (fun n => default Byte.x00 (Byte.of_nat (7 * n + 3)))
        (demo_spawn wd ht remux_exit) (fun _ => false).

Definition demo_env : Env := demo_env_with 1920 1080 0.

Definition demo_png (size : Z) : File :=
  mkFile "thumbnail.png" "image/png" size [Byte.x89; Byte.x50; Byte.x4e; Byte.x47].

Definition demo_mp4 (size : Z) : File :=
  mkFile "boots.mp4" "video/mp4" size [Byte.x00; Byte.x00; Byte.x00; Byte.x18].

(** A request for video [vid] with the token of [user] and the given form. *)
Definition demo_request (vid user : string)
    (form : list (string * FormDataEntryValue)) : BunRequest :=
  mkRequest (Some vid) [("Authorization", "Bearer hunter2:" +:+ user)] form.

(** An otherwise valid upload: the file is there, within the cap and of an
    accepted type. *)
Definition valid_video_upload (req : BunRequest) : Prop :=
  exists f, carries req "video" f /\ file_size f <= 2 ^ 30 /\
            file_type f = "video/mp4".

Definition valid_thumbnail_upload (req : BunRequest) : Prop :=
  exists f, carries req "thumbnail" f /\ file_size f <= 10 * 2 ^ 20 /\
            (file_type f = "image/png" \/ file_type f = "image/jpeg").

(** Handler [h] mutates a record only for its owner: [updateVideo] is called
    only when the token's user owns the record named by the request, and a
    valid upload by anybody else is refused with nothing touched. *)
Definition owner_guarded `{Collaborators}
    (h : ApiConfig -> BunRequest -> M Response)
    (valid : BunRequest -> Prop) : Prop :=
  forall cfg req env w r w' l,
    h cfg req env w = (r, w', l) ->
    (forall upd, In (EvUpdateVideo upd) l ->
       exists vid user old,
         authenticated cfg req vid user /\
         find_video (db w) vid = Some old /\ userID old = user /\
         id upd = vid) /\
    (forall vid user old,
       authenticated cfg req vid user ->
       find_video (db w) vid = Some old -> userID old <> user ->
       valid req ->
       r = Err (UserForbiddenError "Forbidden") /\ w' = w /\ l = []).

(** A thumbnail upload that passes the checks both variants make: the file
    is there and within the cap. *)
Definition sized_thumbnail_upload (req : BunRequest) : Prop :=
  exists f, carries req "thumbnail" f /\ file_size f <= 10 * 2 ^ 20.

(** The request [req] with another multipart form. *)
Definition with_form (req : BunRequest)
    (form : list (string * FormDataEntryValue)) : BunRequest :=
  mkRequest (params_videoId req) (headers req) form.

(** The outcome is an invalid-request error. *)
Definition invalid_request {A} (o : result A * World * list Event) : Prop :=
  exists e, o.1.1 = Err e /\ kind_of e = InvalidRequest.

(** The outcome is the rejection for size. *)
Definition too_large {A} (o : result A * World * list Event) : Prop :=
  o.1.1 = Err (BadRequestError "File too large").




(** What the probe of [getVideoAspectRatio] reports for [filePath] in world
    [w]. *)
Definition probe_of (env : Env) (w : World) (filePath : string) : Subprocess :=
  spawn env ["ffprobe"; "-v"; "error"; "-select_streams"; "v:0";
             "-show_entries"; "stream=width,height"; "-of"; "json";
             "-show_streams"; filePath] (disk w).

(** Characters of the two encodings. *)
Definition is_hex_char (c : ascii) : bool :=
  let n := N_of_ascii c in
  ((48 <=? n) && (n <=? 57) || (97 <=? n) && (n <=? 102))%N.

Definition is_urlsafe_char (c : ascii) : bool :=
  let n := N_of_ascii c in
  ((65 <=? n) && (n <=? 90) || (97 <=? n) && (n <=? 122)
   || (48 <=? n) && (n <=? 57) || (n =? 45) || (n =? 95))%N.

Fixpoint string_forall (P : ascii -> bool) (s : string) : bool :=
  match s with
  | EmptyString => true
  | String c s' => P c && string_forall P s'
  end.

(** The value of a lower-case hexadecimal digit. *)
Definition hex_value (c : ascii) : N :=
  let n := N_of_ascii c in
  (if n <? 58 then n - 48 else n - 87)%N.

(** The demo environment with chosen runtime failures. *)
Definition demo_env_rejecting (rej : Call -> bool) : Env :=
  mkEnv (entropy demo_env) (spawn demo_env) rej.

Definition deletions_fail (c : Call) : bool :=
  match c with CallDelete _ => true | _ => false end.

Definition updates_fail (c : Call) : bool :=
  match c with CallUpdateVideo _ => true | _ => false end.

(** A probe that cannot read the file. *)
Definition demo_env_unreadable : Env :=
  mkEnv (entropy demo_env)
        (fun _ _ => mkSubprocess 1 (mkStreamInfo [])
                      "Invalid data found when processing input" [])
        (fun _ => false).

Definition demo_video_request : BunRequest :=
  demo_request "V" "U1" [("video", FormFile (demo_mp4 2048))].

Definition demo_thumbnail_request : BunRequest :=
  demo_request "V" "U1" [("thumbnail", FormFile (demo_png 2048))].

(** What [processVideoForFastStart] starts for [inputFilePath] in world
    [w]. *)
Definition remux_of (env : Env) (w : World) (inputFilePath : string)
  : Subprocess :=
  spawn env ["ffmpeg"; "-i"; inputFilePath; "-movflags"; "faststart";
             "-map_metadata"; "0"; "-codec"; "copy"; "-f"; "mp4";
             inputFilePath +:+ ".processed"] (disk w).

(** The world once [buffer] is written to [path] (a [Bun.write] that is
    not rejected), and once the files a subprocess created are on the disk
    (what [Bun.spawn] leaves). *)
Definition after_write (w : World) (path : string)
    (buffer : list Byte.byte) : World :=
  mkWorld (db w) (<[path := buffer]> (disk w)) (bucket w) (videoThumbnails w).

Definition after_process (w : World) (p : Subprocess) : World :=
  mkWorld (db w)
          (fold_right (fun kv d => <[kv.1 := kv.2]> d) (disk w) (created p))
          (bucket w) (videoThumbnails w).

(** A dimension read from the probe's JSON. *)
Definition of_pixels (n : Z) : float := PrimFloat.of_uint63 (Uint63.of_Z n).

(** [P] holds for 1, ..., n. *)
Fixpoint all_upto (n : nat) (P : Z -> bool) : bool :=
  match n with
  | O => true
  | S n' => P (Z.of_nat n) && all_upto n' P
  end.

Definition AspectRatio_eqb (a b : AspectRatio) : bool :=
  match a, b with
  | Landscape, Landscape | Portrait, Portrait | Other, Other => true
  | _, _ => false
  end.

(** The value of a base64url digit. *)
Definition b64url_value (c : ascii) : N :=
  let n := N_of_ascii c in
  (if (65 <=? n) && (n <=? 90) then n - 65
   else if (97 <=? n) && (n <=? 122) then n - 71
   else if (48 <=? n) && (n <=? 57) then n + 4
   else if n =? 45 then 62
   else 63)%N.

(** * Properties *)

(** The encoders are evaluated on concrete bytes only. *)
Arguments to_hex : simpl never.
Arguments to_base64url : simpl never.
Arguments split_on : simpl never.

(** ** The record store *)

Lemma find_video_id tbl vid v : find_video tbl vid = Some v -> id v = vid.
Proof.
  unfold find_video. intros Hf.
  apply List.find_some in Hf as [_ Heq]. by apply String.eqb_eq in Heq.
Qed.

Lemma find_replace_same tbl v old :
  find_video tbl (id v) = Some old ->
  find_video (replace_video tbl v) (id v) = Some v.
Proof.
  unfold find_video, replace_video.
  induction tbl as [|r tbl IH]; simpl; [done|].
  destruct (String.eqb (id r) (id v)) eqn:E.
  - intros _. by rewrite String.eqb_refl.
  - rewrite E. exact IH.
Qed.

Lemma find_replace_other tbl v k :
  k <> id v -> find_video (replace_video tbl v) k = find_video tbl k.
Proof.
  unfold find_video, replace_video. intros Hk.
  induction tbl as [|r tbl IH]; simpl; [done|].
  destruct (String.eqb (id r) (id v)) eqn:E.
  - apply String.eqb_eq in E.
    destruct (String.eqb (id v) k) eqn:E1;
      [apply String.eqb_eq in E1; congruence|].
    destruct (String.eqb (id r) k) eqn:E2;
      [apply String.eqb_eq in E2; congruence|].
    exact IH.
  - destruct (String.eqb (id r) k); [done|exact IH].
Qed.

(** ** Rules for runs *)

Section Rules.
Context {A B : Type} (env : Env) (w : World).
Implicit Types Q : result A -> World -> list Event -> Prop.

Lemma wp_run (c : M A) Q :
  wp c env w Q -> forall r w' l, c env w = (r, w', l) -> Q r w' l.
Proof. unfold wp. intros HQ r w' l Hrun. by rewrite Hrun in HQ. Qed.

Lemma wp_ret (a : A) Q : Q (Ok a) w [] -> wp (mret a) env w Q.
Proof. done. Qed.

Lemma wp_throw e Q : Q (Err e) w [] -> wp (throw e) env w Q.
Proof. done. Qed.

Lemma wp_lift r Q : Q r w [] -> wp (lift r) env w Q.
Proof. done. Qed.

Lemma wp_throw_if (c : bool) e (k : M A) Q :
  (c = true -> Q (Err e) w []) -> (c = false -> wp k env w Q) ->
  wp (throw_if c e k) env w Q.
Proof.
  intros H1 H2. destruct c; [exact (H1 eq_refl) | exact (H2 eq_refl)].
Qed.

Lemma wp_bind (c : M A) (k : A -> M B)
    (Q : result B -> World -> list Event -> Prop) :
  wp c env w (fun r w1 l1 =>
    match r with
    | Ok a => wp (k a) env w1 (fun r' w2 l2 => Q r' w2 (l1 ++ l2))
    | Err e => Q (Err e) w1 l1
    end) ->
  wp (c ≫= k) env w Q.
Proof.
  unfold wp, mbind, M_bind.
  destruct (c env w) as [[[a|e] w1] l1]; simpl; [|done].
  by destruct (k a env w1) as [[r w2] l2].
Qed.
End Rules.

Section CallRules.
Context (env : Env) (w : World).

Lemma wp_getVideo vid Q :
  Q (Ok (find_video (db w) vid)) w [] -> wp (getVideo vid) env w Q.
Proof. done. Qed.

Lemma wp_randomBytes n Q :
  Q (Ok (List.map (entropy env) (seq 0 n))) w [] ->
  wp (randomBytes n) env w Q.
Proof. done. Qed.

Lemma wp_respondWithJSON st p Q :
  Q (Ok (mkResponse st p)) w [] -> wp (respondWithJSON st p) env w Q.
Proof. done. Qed.

Lemma wp_updateVideo v Q :
  (rejects env (CallUpdateVideo (id v)) = true ->
   Q (Err (Rejected "updateVideo")) w [EvUpdateVideo v]) ->
  (rejects env (CallUpdateVideo (id v)) = false ->
   Q (Ok tt) (mkWorld (replace_video (db w) v) (disk w) (bucket w)
                      (videoThumbnails w)) [EvUpdateVideo v]) ->
  wp (updateVideo v) env w Q.
Proof.
  unfold wp, updateVideo, mbind, M_bind, emit, ask_rejects, throw_if; simpl.
  destruct (rejects env _); simpl; auto.
Qed.

Lemma wp_Bun_write path buf Q :
  (rejects env (CallBunWrite path) = true ->
   Q (Err (Rejected "Bun.write")) w [EvBunWrite path]) ->
  (rejects env (CallBunWrite path) = false ->
   Q (Ok tt) (mkWorld (db w) (<[path := buf]> (disk w)) (bucket w)
                      (videoThumbnails w)) [EvBunWrite path]) ->
  wp (Bun_write path buf) env w Q.
Proof.
  unfold wp, Bun_write, mbind, M_bind, emit, ask_rejects, throw_if; simpl.
  destruct (rejects env _); simpl; auto.
Qed.

Lemma wp_Bun_delete path Q :
  (rejects env (CallDelete path) = true ->
   Q (Err (Rejected "delete")) w [EvDelete path]) ->
  (rejects env (CallDelete path) = false ->
   Q (Ok tt) (mkWorld (db w) (delete path (disk w)) (bucket w)
                      (videoThumbnails w)) [EvDelete path]) ->
  wp (Bun_delete path) env w Q.
Proof.
  unfold wp, Bun_delete, mbind, M_bind, emit, ask_rejects, throw_if; simpl.
  destruct (rejects env _); simpl; auto.
Qed.

Lemma wp_s3_write key path ty Q :
  (disk w !! path = None \/ rejects env (CallS3Write key) = true ->
   Q (Err (Rejected "s3.write")) w [EvS3Write key ty]) ->
  (forall content, disk w !! path = Some content ->
   rejects env (CallS3Write key) = false ->
   Q (Ok tt) (mkWorld (db w) (disk w)
                      (<[key := mkS3Object content ty]> (bucket w))
                      (videoThumbnails w)) [EvS3Write key ty]) ->
  wp (s3_write key path ty) env w Q.
Proof.
  unfold wp, s3_write, mbind, M_bind, emit, ask_rejects, throw_if, get_world;
    simpl.
  destruct (disk w !! path) eqn:E; simpl; [|auto].
  destruct (rejects env _) eqn:R; simpl; eauto.
Qed.

Lemma wp_Bun_spawn cmd Q :
  Q (Ok (spawn env cmd (disk w)))
    (mkWorld (db w)
       (fold_right (fun kv d => <[kv.1 := kv.2]> d) (disk w)
                   (created (spawn env cmd (disk w))))
       (bucket w) (videoThumbnails w))
    [EvSpawn cmd] ->
  wp (Bun_spawn cmd) env w Q.
Proof. done. Qed.

Lemma wp_videoThumbnails_get key Q :
  Q (Ok (videoThumbnails w !! key)) w [] ->
  wp (videoThumbnails_get key) env w Q.
Proof. done. Qed.

Lemma wp_videoThumbnails_set key t Q :
  Q (Ok tt) (mkWorld (db w) (disk w) (bucket w)
                     (<[key := t]> (videoThumbnails w)))
    [EvThumbnailSet key] ->
  wp (videoThumbnails_set key t) env w Q.
Proof. done. Qed.
End CallRules.

(** One step of symbolic execution of a handler. *)
Ltac wp_step :=
  lazymatch goal with
  | |- wp (mbind _ _) _ _ _ => apply wp_bind
  | |- wp (mret _) _ _ _ => apply wp_ret
  | |- wp (throw _) _ _ _ => apply wp_throw
  | |- wp (lift ?r) _ _ _ => apply wp_lift; destruct r eqn:?
  | |- wp (throw_if _ _ _) _ _ _ => apply wp_throw_if; intros ?
  | |- wp (getVideo _) _ _ _ => apply wp_getVideo
  | |- wp (randomBytes _) _ _ _ => apply wp_randomBytes
  | |- wp (respondWithJSON _ _) _ _ _ => apply wp_respondWithJSON
  | |- wp (updateVideo _) _ _ _ => apply wp_updateVideo; intros ?
  | |- wp (Bun_write _ _) _ _ _ => apply wp_Bun_write; intros ?
  | |- wp (Bun_delete _) _ _ _ => apply wp_Bun_delete; intros ?
  | |- wp (s3_write _ _ _) _ _ _ =>
      apply wp_s3_write; [intros ? | intros ? ? ?]
  | |- wp (Bun_spawn _) _ _ _ => apply wp_Bun_spawn
  | |- wp (videoThumbnails_set _ _) _ _ _ => apply wp_videoThumbnails_set
  | |- wp (videoThumbnails_get _) _ _ _ => apply wp_videoThumbnails_get
  | |- wp (Videos.getVideoAspectRatio _) _ _ _ =>
      unfold Videos.getVideoAspectRatio
  | |- wp (Videos.processVideoForFastStart _) _ _ _ =>
      unfold Videos.processVideoForFastStart
  | |- wp (match ?x with _ => _ end) _ _ _ => destruct x eqn:?
  | |- wp _ _ _ _ => progress cbv zeta
  end; cbv beta iota; cbn [db disk bucket videoThumbnails app].

Ltac wp_run_handler :=
  unfold VideosDirect.handlerUploadVideo, Videos.handlerUploadVideo,
    ThumbnailsDisk.handlerUploadThumbnail,
    ThumbnailsMemory.handlerUploadThumbnail,
    ThumbnailsMemory.handlerGetThumbnail;
  repeat wp_step.

(** Boolean tests of the handlers, read as propositions. *)
Ltac bool_hyps :=
  repeat match goal with
  | H : negb _ = true |- _ => apply negb_true_iff in H
  | H : negb _ = false |- _ => apply negb_false_iff in H
  | H : _ || _ = false |- _ => apply orb_false_iff in H; destruct H
  | H : String.eqb _ _ = true |- _ => apply String.eqb_eq in H
  | H : String.eqb _ _ = false |- _ => apply String.eqb_neq in H
  end.

(** Turn a statement about every outcome of a run into one about the run. *)
Ltac by_run :=
  lazymatch goal with
  | |- forall r w' l, ?c ?env ?w = (r, w', l) -> @?Q r w' l =>
      refine (wp_run env w c Q _)
  end.

(** Symbolic execution that drops the branches the hypotheses exclude. *)
Ltac prune :=
  simplify_eq; try (bool_hyps; exfalso; congruence).

Ltac wp_run_pruning :=
  unfold VideosDirect.handlerUploadVideo, Videos.handlerUploadVideo,
    ThumbnailsDisk.handlerUploadThumbnail,
    ThumbnailsMemory.handlerUploadThumbnail,
    ThumbnailsMemory.handlerGetThumbnail;
  repeat (wp_step; prune).

(** Case analysis on membership in a literal event log. *)
Ltac in_log H :=
  cbn [In] in H;
  repeat (destruct H as [H|H]; [try discriminate H|]);
  try contradiction.

(** ** Size caps *)

Lemma video_cap :
  VideosDirect.MAX_UPLOAD_SIZE = 2 ^ 30 /\ Videos.MAX_UPLOAD_SIZE = 2 ^ 30.
Proof. split; reflexivity. Qed.

Lemma thumbnail_cap :
  ThumbnailsDisk.MAX_UPLOAD_SIZE = 10 * 2 ^ 20 /\
  ThumbnailsMemory.MAX_UPLOAD_SIZE = 10 * 2 ^ 20.
Proof. split; reflexivity. Qed.

Lemma within_video_cap z :
  z <= 2 ^ 30 ->
  (z >? VideosDirect.MAX_UPLOAD_SIZE) = false /\
  (z >? Videos.MAX_UPLOAD_SIZE) = false.
Proof.
  destruct video_cap as [-> ->]. intros Hz.
  rewrite Z.gtb_ltb. split; apply Z.ltb_ge; exact Hz.
Qed.

Lemma within_thumbnail_cap z :
  z <= 10 * 2 ^ 20 ->
  (z >? ThumbnailsDisk.MAX_UPLOAD_SIZE) = false /\
  (z >? ThumbnailsMemory.MAX_UPLOAD_SIZE) = false.
Proof.
  destruct thumbnail_cap as [-> ->]. intros Hz.
  rewrite Z.gtb_ltb. split; apply Z.ltb_ge; exact Hz.
Qed.

(** Before a run: a size within the cap, as the test the handler makes. *)
Ltac within_caps :=
  repeat match goal with
  | H : _ <= 2 ^ 30 |- _ => apply within_video_cap in H; destruct H
  | H : _ <= 10 * 2 ^ 20 |- _ => apply within_thumbnail_cap in H; destruct H
  end.

(** After a run: the size tests the handler made, as inequalities. *)
Ltac size_hyps :=
  repeat match goal with
  | H : (_ >? _) = true |- _ => apply Z.gtb_lt in H
  | H : (_ >? _) = false |- _ => rewrite Z.gtb_ltb in H; apply Z.ltb_ge in H
  end;
  destruct video_cap as [? ?]; destruct thumbnail_cap as [? ?].

Lemma includes_allowed ty :
  includes ["image/png"; "image/jpeg"] ty = true <->
  ty = "image/png" \/ ty = "image/jpeg".
Proof.
  unfold includes. rewrite orb_false_r, orb_true_iff, !String.eqb_eq.
  intuition congruence.
Qed.

(** ** Ownership *)

Section Ownership.
Context `{Collaborators}.

(** [updateVideo] is reached only past the ownership test. *)
Lemma update_implies_owner h cfg req env w r w' l upd :
  In h upload_handlers ->
  h cfg req env w = (r, w', l) ->
  In (EvUpdateVideo upd) l ->
  exists vid user old,
    authenticated cfg req vid user /\
    find_video (db w) vid = Some old /\ userID old = user /\
    id upd = vid.
Proof.
  intros Hin Hrun. revert upd. revert r w' l Hrun. by_run.
  repeat (destruct Hin as [<-|Hin]); [..|destruct Hin].
  all: wp_run_pruning.
  all: intros upd Hupd; in_log Hupd.
  all: injection Hupd as <-; bool_hyps; eexists _, _, _; unfold authenticated;
       simpl; eauto 10 using find_video_id.
Qed.

(** A valid upload by somebody else stops at the ownership test. *)
Lemma video_upload_forbidden h cfg req env w vid user old :
  In h video_handlers ->
  authenticated cfg req vid user ->
  find_video (db w) vid = Some old -> userID old <> user ->
  h cfg req env w = (Err (UserForbiddenError "Forbidden"), w, []).
Proof.
  intros Hin (Hp & Ht & tok & Hg & Hv) Hfind Hne.
  destruct (h cfg req env w) as [[r w'] l] eqn:Hrun.
  revert r w' l Hrun. by_run.
  repeat (destruct Hin as [<-|Hin]); [..|destruct Hin].
  all: wp_run_pruning; reflexivity.
Qed.

Lemma thumbnail_upload_forbidden h cfg req env w vid user old :
  In h thumbnail_handlers ->
  authenticated cfg req vid user ->
  find_video (db w) vid = Some old -> userID old <> user ->
  valid_thumbnail_upload req ->
  h cfg req env w = (Err (UserForbiddenError "Forbidden"), w, []).
Proof.
  intros Hin (Hp & Ht & tok & Hg & Hv) Hfind Hne (f & Hc & Hsz & Hty).
  apply includes_allowed in Hty. unfold carries in Hc. within_caps.
  destruct (h cfg req env w) as [[r w'] l] eqn:Hrun.
  revert r w' l Hrun. by_run.
  repeat (destruct Hin as [<-|Hin]); [..|destruct Hin].
  all: wp_run_pruning; reflexivity.
Qed.
End Ownership.

(** C1.  Only the owner mutates a record.  In each of the four upload
    handlers [updateVideo] is called only when the user of the validated
    token is the owner of the record the request names; and a request
    authenticated as anybody else, with an otherwise valid file, is answered
    with the forbidden error, the world (the record included) is as before
    and nothing was done. *)
Theorem owner_only_mutation `{Collaborators} :
  owner_guarded VideosDirect.handlerUploadVideo valid_video_upload /\
  owner_guarded Videos.handlerUploadVideo valid_video_upload /\
  owner_guarded ThumbnailsDisk.handlerUploadThumbnail valid_thumbnail_upload /\
  owner_guarded ThumbnailsMemory.handlerUploadThumbnail valid_thumbnail_upload.
Proof.
  unfold owner_guarded.
  split; [|split; [|split]]; intros cfg req env w r w' l Hrun; split.
  all: try (intros upd Hupd;
            eapply update_implies_owner; [|exact Hrun|exact Hupd];
            simpl; tauto).
  - intros vid user old Ha Hf Hne _.
    rewrite (video_upload_forbidden _ cfg req env w vid user old) in Hrun;
      [by simplify_eq | simpl; tauto | done..].
  - intros vid user old Ha Hf Hne _.
    rewrite (video_upload_forbidden _ cfg req env w vid user old) in Hrun;
      [by simplify_eq | simpl; tauto | done..].
  - intros vid user old Ha Hf Hne Hv.
    rewrite (thumbnail_upload_forbidden _ cfg req env w vid user old) in Hrun;
      [by simplify_eq | simpl; tauto | done..].
  - intros vid user old Ha Hf Hne Hv.
    rewrite (thumbnail_upload_forbidden _ cfg req env w vid user old) in Hrun;
      [by simplify_eq | simpl; tauto | done..].
Qed.

Lemma owner_only_mutation_witness :
  (ThumbnailsDisk.handlerUploadThumbnail (H := demo_collaborators) demo_cfg
     (demo_request "V" "U2" [("thumbnail", FormFile (demo_png 2048))])
     demo_env demo_world).1.1
  = Err (UserForbiddenError "Forbidden").
Proof.
  pose proof (@owner_only_mutation demo_collaborators) as (_ & _ & Hdisk & _).
  destruct (ThumbnailsDisk.handlerUploadThumbnail (H := demo_collaborators)
              demo_cfg
              (demo_request "V" "U2" [("thumbnail", FormFile (demo_png 2048))])
              demo_env demo_world) as [[r w'] l] eqn:Hrun.
  destruct (Hdisk _ _ _ _ _ _ _ Hrun) as [_ Hforbid].
  simpl. apply (Hforbid "V" "U2" demo_video).
  - repeat split; eexists; split; reflexivity.
  - reflexivity.
  - discriminate.
  - exists (demo_png 2048). repeat split; [vm_compute; discriminate | by left].
Defined.

(** ** Record lookup *)

Section Lookup.
Context `{Collaborators}.

Lemma thumbnail_disk_lookup_miss cfg req env w vid user :
  authenticated cfg req vid user -> find_video (db w) vid = None ->
  (valid_thumbnail_upload req ->
   ThumbnailsDisk.handlerUploadThumbnail cfg req env w
   = (Err (NotFoundError "Video not found"), w, [])) /\
  (~ valid_thumbnail_upload req ->
   exists msg, ThumbnailsDisk.handlerUploadThumbnail cfg req env w
               = (Err (BadRequestError msg), w, [])).
Proof.
  intros (Hp & Ht & tok & Hg & Hv) Hfind.
  destruct (ThumbnailsDisk.handlerUploadThumbnail cfg req env w)
    as [[r w'] l] eqn:Hrun.
  revert r w' l Hrun. by_run. wp_run_pruning.
  all: split; [intros (f' & Hc & Hsz & Hty) | intros Hno].
  all: try apply includes_allowed in Hty; unfold carries in *.
  all: try (eexists; reflexivity); within_caps; prune; try reflexivity.
  all: exfalso; apply Hno; eexists; bool_hyps; size_hyps;
       rewrite <- includes_allowed; eauto with lia.
Qed.

Lemma thumbnail_memory_lookup_miss cfg req env w vid user :
  authenticated cfg req vid user -> find_video (db w) vid = None ->
  (sized_thumbnail_upload req ->
   ThumbnailsMemory.handlerUploadThumbnail cfg req env w
   = (Err (NotFoundError "Video not found"), w, [])) /\
  (~ sized_thumbnail_upload req ->
   exists msg, ThumbnailsMemory.handlerUploadThumbnail cfg req env w
               = (Err (BadRequestError msg), w, [])).
Proof.
  intros (Hp & Ht & tok & Hg & Hv) Hfind.
  destruct (ThumbnailsMemory.handlerUploadThumbnail cfg req env w)
    as [[r w'] l] eqn:Hrun.
  revert r w' l Hrun. by_run. wp_run_pruning.
  all: split; [intros (f' & Hc & Hsz) | intros Hno]; unfold carries in *.
  all: try (eexists; reflexivity); within_caps; prune; try reflexivity.
  all: exfalso; apply Hno; eexists; bool_hyps; size_hyps; eauto with lia.
Qed.

(** The video handlers look the record up before they read the form. *)
Lemma video_lookup_miss h cfg req env w vid user :
  In h video_handlers ->
  authenticated cfg req vid user -> find_video (db w) vid = None ->
  exists e, forall form, h cfg (with_form req form) env w = (Err e, w, []).
Proof.
  intros Hin (Hp & Ht & tok & Hg & Hv) Hfind.
  exists (BadRequestError "Video not found"). intros form.
  destruct (h cfg (with_form req form) env w) as [[r w'] l] eqn:Hrun.
  revert r w' l Hrun. by_run.
  repeat (destruct Hin as [<-|Hin]); [..|destruct Hin].
  all: unfold with_form; wp_run_pruning; simpl in *; prune; reflexivity.
Qed.
End Lookup.

(** C3, as the code has it.  With a valid bearer token and a video id that
    is not in the record store: a thumbnail handler answers not-found when
    the form passes the validation that handler makes (file present, within
    the cap and, in the disk variant, of an allowed type), because that
    validation comes before the record lookup, and answers invalid-request
    when the form fails it; a video handler looks the record up before it
    reads the form and fails with one and the same error whatever the form
    holds. *)
Theorem lookup_miss `{Collaborators} cfg req env w vid user :
  authenticated cfg req vid user ->
  find_video (db w) vid = None ->
  (valid_thumbnail_upload req ->
   ThumbnailsDisk.handlerUploadThumbnail cfg req env w
   = (Err (NotFoundError "Video not found"), w, [])) /\
  (~ valid_thumbnail_upload req ->
   exists msg, ThumbnailsDisk.handlerUploadThumbnail cfg req env w
               = (Err (BadRequestError msg), w, [])) /\
  (sized_thumbnail_upload req ->
   ThumbnailsMemory.handlerUploadThumbnail cfg req env w
   = (Err (NotFoundError "Video not found"), w, [])) /\
  (~ sized_thumbnail_upload req ->
   exists msg, ThumbnailsMemory.handlerUploadThumbnail cfg req env w
               = (Err (BadRequestError msg), w, [])) /\
  (forall h, In h video_handlers ->
   exists e, forall form, h cfg (with_form req form) env w = (Err e, w, [])).
Proof.
  intros Ha Hf.
  destruct (thumbnail_disk_lookup_miss cfg req env w vid user Ha Hf).
  destruct (thumbnail_memory_lookup_miss cfg req env w vid user Ha Hf).
  repeat split; try assumption.
  intros h Hin. by eapply video_lookup_miss.
Qed.

Lemma lookup_miss_witness :
  ThumbnailsDisk.handlerUploadThumbnail (H := demo_collaborators) demo_cfg
    (demo_request "W" "U1" [("thumbnail", FormFile (demo_png 2048))])
    demo_env demo_world
  = (Err (NotFoundError "Video not found"), demo_world, []).
Proof.
  refine (proj1 (@lookup_miss demo_collaborators demo_cfg
                   (demo_request "W" "U1"
                      [("thumbnail", FormFile (demo_png 2048))])
                   demo_env demo_world "W" "U1" _ _) _).
  - repeat split; eexists; split; reflexivity.
  - reflexivity.
  - exists (demo_png 2048). repeat split; [vm_compute; discriminate | by left].
Defined.

(** The record lookup of the thumbnail handlers does not come before the
    form validation: with a valid token, an unknown video id and a form
    without the file, both answer invalid-request, not not-found. *)
Lemma lookup_miss_counterexample :
  authenticated (H := demo_collaborators) demo_cfg
    (demo_request "W" "U1" []) "W" "U1" /\
  find_video (db demo_world) "W" = None /\
  ThumbnailsDisk.handlerUploadThumbnail (H := demo_collaborators)
    demo_cfg (demo_request "W" "U1" []) demo_env demo_world
  = (Err (BadRequestError "Thumbnail file missing"), demo_world, []) /\
  ThumbnailsMemory.handlerUploadThumbnail (H := demo_collaborators)
    demo_cfg (demo_request "W" "U1" []) demo_env demo_world
  = (Err (BadRequestError "Thumbnail file missing"), demo_world, []) /\
  kind_of (BadRequestError "Thumbnail file missing") <> NotFound.
Proof.
  repeat split; try discriminate; eexists; split; reflexivity.
Qed.

(** The video handlers raise the lookup miss as [BadRequestError], where
    the thumbnail handlers raise [NotFoundError]. *)
Example video_lookup_miss_kind :
  Videos.handlerUploadVideo (H := demo_collaborators) demo_cfg
    (demo_request "W" "U1" [("video", FormFile (demo_mp4 2048))])
    demo_env demo_world
  = (Err (BadRequestError "Video not found"), demo_world, []) /\
  VideosDirect.handlerUploadVideo (H := demo_collaborators) demo_cfg
    (demo_request "W" "U1" [("video", FormFile (demo_mp4 2048))])
    demo_env demo_world
  = (Err (BadRequestError "Video not found"), demo_world, []).
Proof. split; reflexivity. Qed.

(** ** Media type and size validation *)

Section Validation.
Context `{Collaborators}.

Lemma video_type_rejected h cfg req env w vid user old f :
  In h video_handlers ->
  authenticated cfg req vid user ->
  find_video (db w) vid = Some old -> userID old = user ->
  carries req "video" f -> file_size f <= 2 ^ 30 ->
  file_type f <> "video/mp4" ->
  h cfg req env w = (Err (BadRequestError "Unsupported file type"), w, []).
Proof.
  intros Hin (Hp & Ht & tok & Hg & Hv) Hfind Hown Hc Hsz Hty.
  unfold carries in Hc. within_caps.
  destruct (h cfg req env w) as [[r w'] l] eqn:Hrun.
  revert r w' l Hrun. by_run.
  repeat (destruct Hin as [<-|Hin]); [..|destruct Hin].
  all: wp_run_pruning; reflexivity.
Qed.

Lemma thumbnail_type_rejected cfg req env w vid user f :
  authenticated cfg req vid user ->
  carries req "thumbnail" f -> file_size f <= 10 * 2 ^ 20 ->
  file_type f <> "image/png" -> file_type f <> "image/jpeg" ->
  ThumbnailsDisk.handlerUploadThumbnail cfg req env w
  = (Err (BadRequestError ("Unsupported file type: " +:+ file_type f)),
     w, []).
Proof.
  intros (Hp & Ht & tok & Hg & Hv) Hc Hsz Hpng Hjpeg.
  unfold carries in Hc. within_caps.
  destruct (ThumbnailsDisk.handlerUploadThumbnail cfg req env w)
    as [[r w'] l] eqn:Hrun.
  revert r w' l Hrun. by_run. wp_run_pruning; try reflexivity.
  all: bool_hyps;
    match goal with
    | Hi : includes _ _ = true |- _ =>
        apply includes_allowed in Hi; tauto
    end.
Qed.

(** The in-memory variant never looks at the declared type: whatever it
    is, the upload goes through and the type is stored with the bytes. *)
Lemma thumbnail_memory_any_type cfg req env w vid user old f :
  authenticated cfg req vid user ->
  find_video (db w) vid = Some old -> userID old = user ->
  carries req "thumbnail" f -> file_size f <= 10 * 2 ^ 20 ->
  rejects env (CallUpdateVideo vid) = false ->
  exists resp w' l,
    ThumbnailsMemory.handlerUploadThumbnail cfg req env w
    = (Ok resp, w', l) /\ status resp = 200 /\
    videoThumbnails w' !! vid
    = Some (mkThumbnail (file_data f) (file_type f)).
Proof.
  intros (Hp & Ht & tok & Hg & Hv) Hfind Hown Hc Hsz Hrej.
  unfold carries in Hc. within_caps.
  pose proof (find_video_id _ _ _ Hfind) as Hid.
  destruct (ThumbnailsMemory.handlerUploadThumbnail cfg req env w)
    as [[r w'] l] eqn:Hrun.
  revert r w' l Hrun. by_run. wp_run_pruning.
  all: simpl in *; try congruence.
  eexists _, _, _. split; [reflexivity|]. split; [reflexivity|].
  apply lookup_insert_eq.
Qed.
End Validation.

(** C4.  Media-type validation.  A video upload that has passed the earlier
    checks (id, token, lookup, ownership, file present, size) and declares a
    type other than exactly [video/mp4] is answered with an invalid-request
    error, whatever the file holds; a thumbnail upload to the disk variant
    that has passed the earlier checks and declares a type outside
    [image/png], [image/jpeg] is answered with an invalid-request error; the
    in-memory variant has no such check and accepts any declared type. *)
Theorem media_type_validation `{Collaborators} cfg req env w vid user f :
  authenticated cfg req vid user ->
  (forall h old,
     In h video_handlers ->
     find_video (db w) vid = Some old -> userID old = user ->
     carries req "video" f -> file_size f <= 2 ^ 30 ->
     file_type f <> "video/mp4" ->
     h cfg req env w = (Err (BadRequestError "Unsupported file type"), w, []) /\
     invalid_request (h cfg req env w)) /\
  (carries req "thumbnail" f -> file_size f <= 10 * 2 ^ 20 ->
   file_type f <> "image/png" -> file_type f <> "image/jpeg" ->
   ThumbnailsDisk.handlerUploadThumbnail cfg req env w
   = (Err (BadRequestError ("Unsupported file type: " +:+ file_type f)),
      w, []) /\
   invalid_request (ThumbnailsDisk.handlerUploadThumbnail cfg req env w)) /\
  (forall old,
     find_video (db w) vid = Some old -> userID old = user ->
     carries req "thumbnail" f -> file_size f <= 10 * 2 ^ 20 ->
     rejects env (CallUpdateVideo vid) = false ->
     exists resp w' l,
       ThumbnailsMemory.handlerUploadThumbnail cfg req env w
       = (Ok resp, w', l) /\ status resp = 200 /\
       videoThumbnails w' !! vid
       = Some (mkThumbnail (file_data f) (file_type f))).
Proof.
  intros Ha. split; [|split].
  - intros h old Hin Hf Ho Hc Hs Ht.
    rewrite (video_type_rejected h cfg req env w vid user old f) by done.
    split; [done|]. by eexists.
  - intros Hc Hs Hp Hj.
    rewrite (thumbnail_type_rejected cfg req env w vid user f) by done.
    split; [done|]. by eexists.
  - intros old. by apply thumbnail_memory_any_type.
Qed.

Lemma media_type_validation_witness :
  Videos.handlerUploadVideo (H := demo_collaborators) demo_cfg
    (demo_request "V" "U1"
       [("video", FormFile (mkFile "boots.webm" "video/webm" 2048 []))])
    demo_env demo_world
  = (Err (BadRequestError "Unsupported file type"), demo_world, []).
Proof.
  refine (proj1 (proj1 (@media_type_validation demo_collaborators demo_cfg
    (demo_request "V" "U1"
       [("video", FormFile (mkFile "boots.webm" "video/webm" 2048 []))])
    demo_env demo_world "V" "U1" (mkFile "boots.webm" "video/webm" 2048 []) _)
    Videos.handlerUploadVideo demo_video _ _ _ _ _ _)).
  - repeat split; eexists; split; reflexivity.
  - right; left; reflexivity.
  - reflexivity.
  - reflexivity.
  - reflexivity.
  - vm_compute; discriminate.
  - discriminate.
Defined.

(** ** The size cap *)

Ltac size_leaf :=
  cbn [fst snd]; bool_hyps; size_hyps; rewrite <- ?includes_allowed;
  split; split;
  try (intros [e [[= <-] [=]]]);
  try (intros [=]); try lia;
  try (intros [?|?]); try lia; try congruence;
  try (eexists; split; reflexivity);
  try (right; congruence).

Section SizeCap.
Context `{Collaborators}.

Lemma thumbnail_disk_size cfg req env w vid user f :
  authenticated cfg req vid user -> carries req "thumbnail" f ->
  (too_large (ThumbnailsDisk.handlerUploadThumbnail cfg req env w) <->
   file_size f > 10 * 2 ^ 20) /\
  (invalid_request (ThumbnailsDisk.handlerUploadThumbnail cfg req env w) <->
   file_size f > 10 * 2 ^ 20 \/
   ~ (file_type f = "image/png" \/ file_type f = "image/jpeg")).
Proof.
  intros (Hp & Ht & tok & Hg & Hv) Hc. unfold carries in Hc.
  unfold too_large, invalid_request.
  destruct (ThumbnailsDisk.handlerUploadThumbnail cfg req env w)
    as [[r w'] l] eqn:Hrun.
  revert r w' l Hrun. by_run. wp_run_pruning.
  all: size_leaf.
Qed.

Lemma thumbnail_memory_size cfg req env w vid user f :
  authenticated cfg req vid user -> carries req "thumbnail" f ->
  (too_large (ThumbnailsMemory.handlerUploadThumbnail cfg req env w) <->
   file_size f > 10 * 2 ^ 20) /\
  (invalid_request (ThumbnailsMemory.handlerUploadThumbnail cfg req env w)
   <-> file_size f > 10 * 2 ^ 20).
Proof.
  intros (Hp & Ht & tok & Hg & Hv) Hc. unfold carries in Hc.
  unfold too_large, invalid_request.
  destruct (ThumbnailsMemory.handlerUploadThumbnail cfg req env w)
    as [[r w'] l] eqn:Hrun.
  revert r w' l Hrun. by_run. wp_run_pruning.
  all: size_leaf.
Qed.

Lemma video_size h cfg req env w vid user old f :
  In h video_handlers ->
  authenticated cfg req vid user ->
  find_video (db w) vid = Some old -> userID old = user ->
  carries req "video" f ->
  (too_large (h cfg req env w) <-> file_size f > 2 ^ 30) /\
  (invalid_request (h cfg req env w) <->
   file_size f > 2 ^ 30 \/ file_type f <> "video/mp4").
Proof.
  intros Hin (Hp & Ht & tok & Hg & Hv) Hfind Hown Hc.
  unfold carries in Hc.
  unfold too_large, invalid_request.
  destruct (h cfg req env w) as [[r w'] l] eqn:Hrun.
  revert r w' l Hrun. by_run.
  repeat (destruct Hin as [<-|Hin]); [..|destruct Hin].
  all: wp_run_pruning.
  all: size_leaf.
Qed.
End SizeCap.

(** C5, as the code has it.  With the earlier checks passed and the file
    field present, a handler raises the size rejection, the invalid-request
    error [File too large], if and only if the file size exceeds the cap,
    [10 * 2^20] bytes for thumbnails and [2^30] bytes for videos; a size
    equal to the cap is not rejected for size.  A file within the cap is
    still answered with invalid-request when the later media-type check
    refuses it, so the handler fails with invalid-request if and only if the
    size exceeds the cap or the declared type is refused; the in-memory
    thumbnail variant has no type check, and there the size alone decides. *)
Theorem size_cap_exact `{Collaborators} cfg req env w vid user f :
  authenticated cfg req vid user ->
  (carries req "thumbnail" f ->
   (too_large (ThumbnailsDisk.handlerUploadThumbnail cfg req env w) <->
    file_size f > 10 * 2 ^ 20) /\
   (invalid_request (ThumbnailsDisk.handlerUploadThumbnail cfg req env w) <->
    file_size f > 10 * 2 ^ 20 \/
    ~ (file_type f = "image/png" \/ file_type f = "image/jpeg")) /\
   (too_large (ThumbnailsMemory.handlerUploadThumbnail cfg req env w) <->
    file_size f > 10 * 2 ^ 20) /\
   (invalid_request (ThumbnailsMemory.handlerUploadThumbnail cfg req env w)
    <-> file_size f > 10 * 2 ^ 20)) /\
  (forall h old,
     In h video_handlers ->
     find_video (db w) vid = Some old -> userID old = user ->
     carries req "video" f ->
     (too_large (h cfg req env w) <-> file_size f > 2 ^ 30) /\
     (invalid_request (h cfg req env w) <->
      file_size f > 2 ^ 30 \/ file_type f <> "video/mp4")).
Proof.
  intros Ha. split.
  - intros Hc.
    destruct (thumbnail_disk_size cfg req env w vid user f Ha Hc).
    destruct (thumbnail_memory_size cfg req env w vid user f Ha Hc).
    tauto.
  - intros h old Hin Hf Ho Hc. by eapply video_size.
Qed.

Lemma size_cap_exact_witness :
  ~ too_large
      (ThumbnailsDisk.handlerUploadThumbnail (H := demo_collaborators)
         demo_cfg
         (demo_request "V" "U1"
            [("thumbnail", FormFile (demo_png (10 * 2 ^ 20)))])
         demo_env demo_world) /\
  too_large
      (ThumbnailsDisk.handlerUploadThumbnail (H := demo_collaborators)
         demo_cfg
         (demo_request "V" "U1"
            [("thumbnail", FormFile (demo_png (10 * 2 ^ 20 + 1)))])
         demo_env demo_world).
Proof.
  assert (Ha : forall size,
            authenticated (H := demo_collaborators) demo_cfg
              (demo_request "V" "U1"
                 [("thumbnail", FormFile (demo_png size))]) "V" "U1")
    by (intros size; repeat split; eexists; split; reflexivity).
  split.
  - destruct (proj1 (@size_cap_exact demo_collaborators demo_cfg _
                       demo_env demo_world "V" "U1" (demo_png (10 * 2 ^ 20))
                       (Ha _)) eq_refl) as ((Hexact & _) & _).
    intros Hl. apply Hexact in Hl. vm_compute in Hl. discriminate.
  - destruct (proj1 (@size_cap_exact demo_collaborators demo_cfg _
                       demo_env demo_world "V" "U1"
                       (demo_png (10 * 2 ^ 20 + 1)) (Ha _)) eq_refl)
      as ((_ & Hexact) & _).
    apply Hexact. reflexivity.
Defined.

(** The invalid-request answer does not mean the size exceeds the cap: a
    5-byte upload declared [video/webm], by the owner, is answered with
    invalid-request by the media-type check. *)
Lemma size_cap_counterexample :
  authenticated (H := demo_collaborators) demo_cfg
    (demo_request "V" "U1"
       [("video", FormFile (mkFile "boots.webm" "video/webm" 5 []))])
    "V" "U1" /\
  find_video (db demo_world) "V" = Some demo_video /\
  userID demo_video = "U1" /\
  carries
    (demo_request "V" "U1"
       [("video", FormFile (mkFile "boots.webm" "video/webm" 5 []))])
    "video" (mkFile "boots.webm" "video/webm" 5 []) /\
  ~ (file_size (mkFile "boots.webm" "video/webm" 5 []) > 2 ^ 30) /\
  invalid_request
    (Videos.handlerUploadVideo (H := demo_collaborators) demo_cfg
       (demo_request "V" "U1"
          [("video", FormFile (mkFile "boots.webm" "video/webm" 5 []))])
       demo_env demo_world) /\
  invalid_request
    (VideosDirect.handlerUploadVideo (H := demo_collaborators) demo_cfg
       (demo_request "V" "U1"
          [("video", FormFile (mkFile "boots.webm" "video/webm" 5 []))])
       demo_env demo_world).
Proof.
  repeat split; try (eexists; split; reflexivity).
  vm_compute. discriminate.
Qed.

(** ** Failures *)

Lemma insert_keeps (m : gmap string (list Byte.byte)) k b p :
  is_Some (m !! p) -> is_Some (<[k := b]> m !! p).
Proof. intros Hp. apply lookup_insert_is_Some. destruct (decide (k = p)); auto. Qed.

Lemma created_keeps (m : gmap string (list Byte.byte)) kvs p :
  is_Some (m !! p) ->
  is_Some (fold_right (fun kv d => <[kv.1 := kv.2]> d) m kvs !! p).
Proof.
  intros Hp. induction kvs as [|kv kvs IH]; simpl; [done|].
  by apply insert_keeps.
Qed.

Lemma insert_has (m : gmap string (list Byte.byte)) k b :
  is_Some (<[k := b]> m !! k).
Proof. rewrite lookup_insert_eq. by eexists. Qed.

Lemma deleted_both (m : gmap string (list Byte.byte)) p q :
  delete q (delete p m) !! p = None /\ delete q (delete p m) !! q = None.
Proof.
  split; [|apply lookup_delete_eq].
  rewrite lookup_delete. case_decide; [done|apply lookup_delete_eq].
Qed.

Create HintDb kept.
#[local] Hint Resolve insert_keeps created_keeps insert_has : kept.

Lemma EvBunWrite_inj a b : EvBunWrite a = EvBunWrite b -> a = b.
Proof. by intros [=]. Qed.

Section Failures.
Context `{Collaborators}.

(** A handler that fails has neither called [updateVideo] nor deleted a
    local file, provided the failure is not that of a deletion or of the
    update itself. *)
Lemma failure_untouched h cfg req env w r w' l :
  In h upload_handlers ->
  (forall p, rejects env (CallDelete p) = false) ->
  (forall v, rejects env (CallUpdateVideo v) = false) ->
  h cfg req env w = (r, w', l) ->
  forall e, r = Err e ->
  (forall ev, In ev l -> is_update ev = false /\ is_delete ev = false) /\
  db w' = db w /\
  (forall p, is_Some (disk w !! p) -> is_Some (disk w' !! p)) /\
  (forall p, In (EvBunWrite p) l -> rejects env (CallBunWrite p) = false ->
             is_Some (disk w' !! p)).
Proof.
  intros Hin Hdel Hupd. revert r w' l. by_run.
  repeat (destruct Hin as [<-|Hin]); [..|destruct Hin].
  all: wp_run_pruning.
  all: intros e' [= <-].
  all: try (rewrite Hdel in *; discriminate).
  all: try (rewrite Hupd in *; discriminate).
  all: split; [intros ev Hev; cbn [In] in Hev;
               repeat (destruct Hev as [<-|Hev]); done|].
  all: split; [reflexivity|].
  all: split; [intros p Hp; eauto 6 with kept|].
  all: intros p Hp Hok; in_log Hp.
  all: apply EvBunWrite_inj in Hp as <-; try congruence;
       eauto 6 with kept.
Qed.

(** On success the log is exactly: write the temporary file, probe,
    remux, upload, delete both local files, update the record. *)
Lemma transcode_success_log cfg req env w r w' l :
  Videos.handlerUploadVideo cfg req env w = (r, w', l) ->
  forall resp, r = Ok resp ->
  exists tmp probe remux key ty v,
    l = [EvBunWrite tmp; EvSpawn probe; EvSpawn remux; EvS3Write key ty;
         EvDelete tmp; EvDelete (tmp +:+ ".processed"); EvUpdateVideo v] /\
    disk w' !! tmp = None /\ disk w' !! (tmp +:+ ".processed") = None.
Proof.
  revert r w' l. by_run. wp_run_pruning.
  all: intros resp' [=].
  eexists _, _, _, _, _, _. split; [reflexivity|]. apply deleted_both.
Qed.

Lemma direct_success_log cfg req env w r w' l :
  VideosDirect.handlerUploadVideo cfg req env w = (r, w', l) ->
  forall resp, r = Ok resp ->
  exists tmp key ty v,
    l = [EvBunWrite tmp; EvS3Write key ty; EvDelete tmp; EvUpdateVideo v] /\
    disk w' !! tmp = None.
Proof.
  revert r w' l. by_run. wp_run_pruning.
  all: intros resp' [=].
  eexists _, _, _, _. split; [reflexivity|]. apply lookup_delete_eq.
Qed.
End Failures.

(** C6.  Error atomicity and no cleanup on failure.  When a handler fails at
    a step other than a deletion or the record update itself (a validation
    error, a probe or remux that exits non-zero, missing dimensions, a
    rejected local or remote write), it has not called [updateVideo], the
    record store is as before, no local file was deleted, and every file
    that was on disk or that the handler wrote is still there.  The
    deletions happen on the success path only, after the remote upload and
    before the record update: both temporary files in the handler that
    remuxes, the one temporary file in the handler that uploads directly. *)
Theorem failure_atomicity `{Collaborators} cfg req env w :
  (forall p, rejects env (CallDelete p) = false) ->
  (forall v, rejects env (CallUpdateVideo v) = false) ->
  (forall h r w' l e,
     In h upload_handlers -> h cfg req env w = (r, w', l) -> r = Err e ->
     (forall ev, In ev l -> is_update ev = false /\ is_delete ev = false) /\
     db w' = db w /\
     (forall p, is_Some (disk w !! p) -> is_Some (disk w' !! p)) /\
     (forall p, In (EvBunWrite p) l -> rejects env (CallBunWrite p) = false ->
                is_Some (disk w' !! p))) /\
  (forall resp w' l,
     Videos.handlerUploadVideo cfg req env w = (Ok resp, w', l) ->
     exists tmp probe remux key ty v,
       l = [EvBunWrite tmp; EvSpawn probe; EvSpawn remux; EvS3Write key ty;
            EvDelete tmp; EvDelete (tmp +:+ ".processed"); EvUpdateVideo v] /\
       disk w' !! tmp = None /\ disk w' !! (tmp +:+ ".processed") = None) /\
  (forall resp w' l,
     VideosDirect.handlerUploadVideo cfg req env w = (Ok resp, w', l) ->
     exists tmp key ty v,
       l = [EvBunWrite tmp; EvS3Write key ty; EvDelete tmp; EvUpdateVideo v] /\
       disk w' !! tmp = None).
Proof.
  intros Hdel Hupd. split; [|split].
  - intros h r w' l e Hin Hrun He. by eapply failure_untouched.
  - intros resp w' l Hrun. by eapply transcode_success_log.
  - intros resp w' l Hrun. by eapply direct_success_log.
Qed.

(** A remux that exits with 1: the request fails, the record is as it was,
    and the temporary file is still in the asset directory. *)
Lemma failure_atomicity_witness :
  exists e w' l p,
    Videos.handlerUploadVideo (H := demo_collaborators) demo_cfg
      (demo_request "V" "U1" [("video", FormFile (demo_mp4 2048))])
      (demo_env_with 1920 1080 1) demo_world = (Err e, w', l) /\
    db w' = db demo_world /\
    In (EvBunWrite p) l /\ is_Some (disk w' !! p) /\
    (forall ev, In ev l -> is_update ev = false /\ is_delete ev = false).
Proof.
  destruct (Videos.handlerUploadVideo (H := demo_collaborators) demo_cfg
      (demo_request "V" "U1" [("video", FormFile (demo_mp4 2048))])
      (demo_env_with 1920 1080 1) demo_world) as [[r w'] l] eqn:Hrun.
  pose proof Hrun as Hval. vm_compute in Hval.
  injection Hval as Hr Hw Hl.
  destruct (proj1 (@failure_atomicity demo_collaborators demo_cfg
      (demo_request "V" "U1" [("video", FormFile (demo_mp4 2048))])
      (demo_env_with 1920 1080 1) demo_world
      (fun _ => eq_refl) (fun _ => eq_refl))
      Videos.handlerUploadVideo r w' l _
      (or_intror (or_introl eq_refl)) Hrun (eq_sym Hr))
    as (Hlog & Hdb & _ & Hkept).
  eexists _, w', l, _. rewrite <- Hr. split; [reflexivity|].
  split; [exact Hdb|]. split; [|split; [|exact Hlog]].
  - rewrite <- Hl. left. reflexivity.
  - apply Hkept; [|reflexivity]. rewrite <- Hl. left. reflexivity.
Defined.

(** ** Success *)

Lemma find_after_update tbl vid old new :
  find_video tbl vid = Some old -> id new = id old ->
  find_video (replace_video tbl new) vid = Some new.
Proof.
  intros Hf Hid. pose proof (find_video_id _ _ _ Hf) as <-.
  rewrite <- Hid in *. by eapply find_replace_same.
Qed.

Section Success.
Context `{Collaborators}.



End Success.



(** ** File names, storage keys and URLs *)

Lemma to_hex_length bs : String.length (to_hex bs) = (2 * length bs)%nat.
Proof.
  induction bs as [|b bs IH]; [reflexivity|].
  change (to_hex (b :: bs))
    with (String (hex_digit (Byte.to_N b / 16))
            (String (hex_digit (Byte.to_N b mod 16)) (to_hex bs))).
  cbn [String.length length]. lia.
Qed.

Lemma append_length (s t : string) :
  String.length (s +:+ t) = (String.length s + String.length t)%nat.
Proof.
  induction s as [|c s IH]; [reflexivity|].
  change (String.length (String c s +:+ t))
    with (S (String.length (s +:+ t))).
  rewrite IH. reflexivity.
Qed.

Lemma randomBytes_length env w n :
  exists bs, randomBytes n env w = (Ok bs, w, []) /\ length bs = n.
Proof.
  eexists. split; [reflexivity|]. by rewrite List.length_map, List.length_seq.
Qed.

(** The extension the disk variant derives from the two allowed types. *)
Lemma allowed_subtype :
  interpolate (split_on "/" "image/png" !! 1%nat) = "png" /\
  interpolate (split_on "/" "image/jpeg" !! 1%nat) = "jpeg".
Proof. split; vm_compute; reflexivity. Qed.

Section ThumbnailUrls.
Context `{Collaborators}.

(** The disk variant: the URL names the file it wrote, on port 8091. *)
Lemma thumbnail_disk_url cfg req env w r w' l :
  ThumbnailsDisk.handlerUploadThumbnail cfg req env w = (r, w', l) ->
  forall resp, r = Ok resp ->
  exists rnd f ext v,
    randomBytes 32 env w = (Ok rnd, w, []) /\
    carries req "thumbnail" f /\
    (file_type f = "image/" +:+ ext) /\ (ext = "png" \/ ext = "jpeg") /\
    disk w' !! path_join (assetsRoot cfg) (to_base64url rnd +:+ "." +:+ ext)
    = Some (file_data f) /\
    body resp = Some v /\
    thumbnailURL v
    = Some ("http://localhost:8091/assets/" +:+ to_base64url rnd
              +:+ "." +:+ ext).
Proof.
  revert r w' l. by_run. wp_run_pruning.
  all: intros resp' [= <-].
  match goal with
  | Hf : find_video _ ?s = Some ?v |- _ =>
      pose proof (find_video_id _ _ _ Hf) as Hid; subst s
  end.
  bool_hyps.
  match goal with
  | Hi : includes _ _ = true |- _ => rename Hi into Hty
  end.
  apply includes_allowed in Hty as [Hty|Hty].
  1: eexists _, _, "png", _. 2: eexists _, _, "jpeg", _.
  all: rewrite Hty; destruct allowed_subtype as [Hpng Hjpeg];
       rewrite ?Hpng, ?Hjpeg; (split; [reflexivity|]).
  all: split; [eassumption|].
  all: split; [reflexivity|].
  all: split; [tauto|].
  all: split; [cbn [disk]; apply lookup_insert_eq|].
  all: cbn [body]; split;
       [eapply find_after_update; [eassumption|reflexivity]|reflexivity].
Qed.

(** The in-memory variant: the URL is the retrieval route for the video,
    on the configured port. *)
Lemma thumbnail_memory_url cfg req env w r w' l :
  ThumbnailsMemory.handlerUploadThumbnail cfg req env w = (r, w', l) ->
  forall resp, r = Ok resp ->
  exists vid f v,
    params_videoId req = Some vid /\
    carries req "thumbnail" f /\
    videoThumbnails w' !! vid = Some (mkThumbnail (file_data f) (file_type f)) /\
    body resp = Some v /\
    thumbnailURL v
    = Some ("http://localhost:" +:+ port cfg +:+ "/api/thumbnails/" +:+ vid).
Proof.
  revert r w' l. by_run. wp_run_pruning.
  all: intros resp' [= <-].
  match goal with
  | Hf : find_video _ ?s = Some ?v |- _ =>
      pose proof (find_video_id _ _ _ Hf) as Hid; subst s
  end.
  eexists _, _, _. split; [reflexivity|]. split; [eassumption|].
  split; [cbn [videoThumbnails]; apply lookup_insert_eq|].
  cbn [body]. split;
    [eapply find_after_update; [eassumption|reflexivity]|reflexivity].
Qed.
End ThumbnailUrls.

(** C9, at a configuration whose HTTP port is 3000.  The in-memory variant
    persists [http://localhost:3000/api/thumbnails/V], on the configured
    port; the disk variant persists a URL on port 8091, the port written in
    its template, and not on the configured one. *)
Theorem thumbnail_url_port :
  port demo_cfg = "3000" /\
  (exists w' l v,
     ThumbnailsMemory.handlerUploadThumbnail (H := demo_collaborators) demo_cfg
       (demo_request "V" "U1" [("thumbnail", FormFile (demo_png 2048))])
       demo_env demo_world = (Ok (mkResponse 200 (Some v)), w', l) /\
     thumbnailURL v = Some "http://localhost:3000/api/thumbnails/V") /\
  (exists w' l v name,
     ThumbnailsDisk.handlerUploadThumbnail (H := demo_collaborators) demo_cfg
       (demo_request "V" "U1" [("thumbnail", FormFile (demo_png 2048))])
       demo_env demo_world = (Ok (mkResponse 200 (Some v)), w', l) /\
     name = to_base64url (List.map (entropy demo_env) (seq 0 32)) /\
     thumbnailURL v
     = Some ("http://localhost:8091/assets/" +:+ name +:+ ".png") /\
     thumbnailURL v
     <> Some ("http://localhost:" +:+ port demo_cfg +:+ "/assets/" +:+ name
                +:+ ".png")).
Proof.
  split; [reflexivity|]. split.
  - eexists _, _, _. split; [vm_compute; reflexivity|]. reflexivity.
  - eexists _, _, _, _. split; [vm_compute; reflexivity|].
    split; [reflexivity|]. split; [vm_compute; reflexivity|].
    vm_compute. discriminate.
Qed.

(** ** The aspect ratio *)

Lemma truthy_number_falsy :
  truthy_number None = false /\
  truthy_number (Some 0%float) = false /\
  truthy_number (Some (-0)%float) = false /\
  truthy_number (Some nan) = false.
Proof. repeat split; reflexivity. Qed.

Lemma truthy_number_nonzero x :
  truthy_number x = true ->
  exists f, x = Some f /\ PrimFloat.eqb f 0%float = false.
Proof.
  destruct x as [f|]; [|discriminate]. cbn.
  intros [Hz _]%andb_true_iff. apply negb_true_iff in Hz. eauto.
Qed.

Section Probe.
Variables (env : Env) (w : World) (filePath : string).

Lemma probe_failed :
  exitCode (probe_of env w filePath) <> 0 ->
  (Videos.getVideoAspectRatio filePath env w).1.1
  = Err (Error ("Failed to get video info: "
                  +:+ stderr_text (probe_of env w filePath))).
Proof.
  intros Hne. unfold Videos.getVideoAspectRatio.
  apply (wp_bind env w (Bun_spawn _) _ (fun r _ _ => r = _)).
  apply wp_Bun_spawn. cbv beta iota. apply wp_throw_if; intros Hc.
  - reflexivity.
  - apply negb_false_iff, Z.eqb_eq in Hc. contradiction.
Qed.

Lemma probe_outcome :
  exitCode (probe_of env w filePath) = 0 ->
  (Videos.getVideoAspectRatio filePath env w).1.1
  = match streams (stdout_json (probe_of env w filePath)) with
    | [] => Err TypeError
    | s :: _ =>
        if truthy_number (height s) && truthy_number (width s)
        then Ok (Videos.classify
                   (Videos.to_number (width s) / Videos.to_number (height s)))
        else Err (Error "Failed to get video dimensions")
    end.
Proof.
  intros He. unfold Videos.getVideoAspectRatio.
  apply (wp_bind env w (Bun_spawn _) _ (fun r _ _ => r = _)).
  apply wp_Bun_spawn. cbv beta iota. apply wp_throw_if; intros Hc.
  - apply negb_true_iff, Z.eqb_neq in Hc. contradiction.
  - fold (probe_of env w filePath). cbv zeta.
    destruct (streams _) as [|s rest]; [reflexivity|].
    apply wp_throw_if; intros Hd.
    + apply orb_true_iff in Hd as [Hd|Hd]; apply negb_true_iff in Hd;
        rewrite Hd; [reflexivity|]. by rewrite andb_false_r.
    + apply orb_false_iff in Hd as [Hh Hw].
      apply negb_false_iff in Hh, Hw. rewrite Hh, Hw. reflexivity.
Qed.
End Probe.

(** C10.  [getVideoAspectRatio] never divides by zero.  When the probe
    exits with 0 and its output has a first stream, a width or height that
    is absent or zero raises the dimensions error, before any division; a
    classification is returned only for a first stream whose width and
    height are both present and nonzero, and it is that of their quotient.
    The first stream itself is read unguarded: with an empty stream list the
    function fails with a [TypeError], not with the dimensions error. *)
Theorem aspect_ratio_guards env w filePath :
  exitCode (probe_of env w filePath) = 0 ->
  (forall s rest,
     streams (stdout_json (probe_of env w filePath)) = s :: rest ->
     truthy_number (height s) = false \/ truthy_number (width s) = false ->
     (Videos.getVideoAspectRatio filePath env w).1.1
     = Err (Error "Failed to get video dimensions")) /\
  (forall ar,
     (Videos.getVideoAspectRatio filePath env w).1.1 = Ok ar ->
     exists s rest wd ht,
       streams (stdout_json (probe_of env w filePath)) = s :: rest /\
       width s = Some wd /\ height s = Some ht /\
       PrimFloat.eqb wd 0 = false /\ PrimFloat.eqb ht 0 = false /\
       ar = Videos.classify (wd / ht)) /\
  (streams (stdout_json (probe_of env w filePath)) = [] ->
   (Videos.getVideoAspectRatio filePath env w).1.1 = Err TypeError /\
   (Videos.getVideoAspectRatio filePath env w).1.1
   <> Err (Error "Failed to get video dimensions")) /\
  (truthy_number None = false /\ truthy_number (Some 0%float) = false).
Proof.
  intros He. rewrite (probe_outcome env w filePath He).
  split; [|split; [|split]].
  - intros s rest -> [Hf|Hf]; rewrite Hf; [reflexivity|].
    by rewrite andb_false_r.
  - intros ar. destruct (streams _) as [|s rest]; [discriminate|].
    destruct (truthy_number (height s)) eqn:Hh; [|discriminate].
    destruct (truthy_number (width s)) eqn:Hw; [|discriminate].
    intros [= <-].
    apply truthy_number_nonzero in Hh as (ht & Hht & Hhz).
    apply truthy_number_nonzero in Hw as (wd & Hwd & Hwz).
    exists s, rest, wd, ht. rewrite Hht, Hwd. by repeat split.
  - intros ->. split; [reflexivity|discriminate].
  - split; reflexivity.
Qed.

(** A probe that reports a stream of height 0. *)
Lemma aspect_ratio_guards_witness :
  (Videos.getVideoAspectRatio "/srv/assets/a.mp4"
     (demo_env_with 1920 0 0) demo_world).1.1
  = Err (Error "Failed to get video dimensions").
Proof.
  refine (proj1 (aspect_ratio_guards (demo_env_with 1920 0 0) demo_world
                   "/srv/assets/a.mp4" eq_refl)
            (mkStream (Some 1920%float) (Some 0%float)) [] eq_refl
            (or_introl eq_refl)).
Defined.

(** C2.  The aspect ratio is a function of the probed width and height
    alone: landscape when width / height >= 1.7, portrait when it is
    <= 0.6, other otherwise, both bounds included.  1920 by 1080 is
    landscape, 1080 by 1920 portrait, 1000 by 950 other; the quotients 17/10
    and 3/5, and the literals 1.7 and 0.6 themselves, fall on the inclusive
    side. *)
#[warnings="-inexact-float"]
Theorem aspect_ratio_classification env w filePath s rest wd ht :
  exitCode (probe_of env w filePath) = 0 ->
  streams (stdout_json (probe_of env w filePath)) = s :: rest ->
  width s = Some wd -> height s = Some ht ->
  truthy_number (Some wd) = true -> truthy_number (Some ht) = true ->
  ((Videos.getVideoAspectRatio filePath env w).1.1 = Ok Landscape <->
   (1.7 <=? wd / ht)%float = true) /\
  ((Videos.getVideoAspectRatio filePath env w).1.1 = Ok Portrait <->
   (1.7 <=? wd / ht)%float = false /\ (wd / ht <=? 0.6)%float = true) /\
  ((Videos.getVideoAspectRatio filePath env w).1.1 = Ok Other <->
   (1.7 <=? wd / ht)%float = false /\ (wd / ht <=? 0.6)%float = false) /\
  Videos.classify (1920 / 1080) = Landscape /\
  Videos.classify (1080 / 1920) = Portrait /\
  Videos.classify (1000 / 950) = Other /\
  Videos.classify (17 / 10) = Landscape /\
  Videos.classify (3 / 5) = Portrait /\
  Videos.classify 1.7 = Landscape /\
  Videos.classify 0.6 = Portrait.
Proof.
  intros He Hs Hw Hh Htw Hth.
  rewrite (probe_outcome env w filePath He), Hs, Hw, Hh, Hth, Htw.
  cbn [andb Videos.to_number]. unfold Videos.classify.
  split_and!; try reflexivity.
  all: repeat match goal with
       | |- context [PrimFloat.leb ?a ?b] => destruct (PrimFloat.leb a b)
       end.
  all: split; try intros [? ?]; try intros [=]; try done.
Qed.

Lemma aspect_ratio_classification_witness :
  (Videos.getVideoAspectRatio "/srv/assets/a.mp4"
     (demo_env_with 1920 1080 0) demo_world).1.1 = Ok Landscape /\
  (Videos.getVideoAspectRatio "/srv/assets/a.mp4"
     (demo_env_with 1080 1920 0) demo_world).1.1 = Ok Portrait /\
  (Videos.getVideoAspectRatio "/srv/assets/a.mp4"
     (demo_env_with 1000 950 0) demo_world).1.1 = Ok Other.
Proof.
  split; [|split].
  - apply (proj1 (aspect_ratio_classification (demo_env_with 1920 1080 0)
                    demo_world "/srv/assets/a.mp4"
                    (mkStream (Some 1920%float) (Some 1080%float)) []
                    1920 1080 eq_refl eq_refl eq_refl eq_refl eq_refl
                    eq_refl)).
    reflexivity.
  - apply (proj1 (proj2 (aspect_ratio_classification
                    (demo_env_with 1080 1920 0)
                    demo_world "/srv/assets/a.mp4"
                    (mkStream (Some 1080%float) (Some 1920%float)) []
                    1080 1920 eq_refl eq_refl eq_refl eq_refl eq_refl
                    eq_refl))).
    split; reflexivity.
  - apply (proj1 (proj2 (proj2 (aspect_ratio_classification
                    (demo_env_with 1000 950 0)
                    demo_world "/srv/assets/a.mp4"
                    (mkStream (Some 1000%float) (Some 950%float)) []
                    1000 950 eq_refl eq_refl eq_refl eq_refl eq_refl
                    eq_refl)))).
    split; reflexivity.
Defined.

(** ** The key and the URL of the later video handler *)

(** An outcome whose result is known. *)
Lemma outcome_err {A} (o : result A * World * list Event) e :
  o.1.1 = Err e -> o = (Err e, o.1.2, o.2).
Proof. destruct o as [[r w] l]. cbn. by intros ->. Qed.

Lemma outcome_ok {A} (o : result A * World * list Event) a :
  o.1.1 = Ok a -> o = (Ok a, o.1.2, o.2).
Proof. destruct o as [[r w] l]. cbn. by intros ->. Qed.

(** The two worlds above are what the calls leave. *)
Lemma Bun_write_world env w path buffer :
  rejects env (CallBunWrite path) = false ->
  Bun_write path buffer env w
  = (Ok tt, after_write w path buffer, [EvBunWrite path]).
Proof.
  intros Hrej.
  unfold Bun_write, mbind, M_bind, emit, ask_rejects, throw_if, get_world,
    put_world.
  cbn. rewrite Hrej. reflexivity.
Qed.

Lemma Bun_spawn_world env w cmd :
  Bun_spawn cmd env w
  = (Ok (spawn env cmd (disk w)), after_process w (spawn env cmd (disk w)),
     [EvSpawn cmd]).
Proof. reflexivity. Qed.

Lemma s3_write_world env w key path ty content :
  rejects env (CallS3Write key) = false ->
  disk w !! path = Some content ->
  s3_write key path ty env w
  = (Ok tt,
     mkWorld (db w) (disk w) (<[key := mkS3Object content ty]> (bucket w))
             (videoThumbnails w),
     [EvS3Write key ty]).
Proof.
  intros Hrej Hfile.
  unfold s3_write, mbind, M_bind, emit, ask_rejects, throw_if, get_world,
    put_world.
  cbn. rewrite Hfile, Hrej. reflexivity.
Qed.

(** A whole run of the probe that succeeds. *)
Lemma probe_run env w filePath s rest wd ht :
  exitCode (probe_of env w filePath) = 0 ->
  streams (stdout_json (probe_of env w filePath)) = s :: rest ->
  width s = Some wd -> height s = Some ht ->
  truthy_number (Some wd) = true -> truthy_number (Some ht) = true ->
  Videos.getVideoAspectRatio filePath env w
  = (Ok (Videos.classify (wd / ht)),
     after_process w (probe_of env w filePath),
     [EvSpawn ["ffprobe"; "-v"; "error"; "-select_streams"; "v:0";
               "-show_entries"; "stream=width,height"; "-of"; "json";
               "-show_streams"; filePath]]).
Proof.
  intros He Hs Hw Hh Htw Hth.
  unfold Videos.getVideoAspectRatio, mbind, M_bind.
  rewrite Bun_spawn_world. fold (probe_of env w filePath).
  rewrite He, Hs, Hw, Hh, Htw, Hth. reflexivity.
Qed.

(** A whole run of the remux that succeeds: the path returned is the input
    path followed by [.processed]. *)
Lemma remux_run env w inputFilePath :
  exitCode (remux_of env w inputFilePath) = 0 ->
  Videos.processVideoForFastStart inputFilePath env w
  = (Ok (inputFilePath +:+ ".processed"),
     after_process w (remux_of env w inputFilePath),
     [EvSpawn ["ffmpeg"; "-i"; inputFilePath; "-movflags"; "faststart";
               "-map_metadata"; "0"; "-codec"; "copy"; "-f"; "mp4";
               inputFilePath +:+ ".processed"]]).
Proof.
  intros He.
  unfold Videos.processVideoForFastStart, mbind, M_bind.
  rewrite Bun_spawn_world. fold (remux_of env w inputFilePath).
  rewrite He. reflexivity.
Qed.

Section Keys.
Context `{Collaborators}.

Lemma transcode_key_url cfg req env w r w' l :
  Videos.handlerUploadVideo cfg req env w = (r, w', l) ->
  forall resp, r = Ok resp ->
  exists rnd f s rest wd ht content v,
    let fileName := to_hex rnd +:+ ".mp4" in
    let filePath := path_join (assetsRoot cfg) fileName in
    let w1 := after_write w filePath (file_data f) in
    let w2 := after_process w1 (probe_of env w1 filePath) in
    let w3 := after_process w2 (remux_of env w2 filePath) in
    let key :=
      AspectRatio_to_string (Videos.classify (wd / ht)) +:+ "/" +:+ fileName in
    randomBytes 32 env w = (Ok rnd, w, []) /\
    length rnd = 32%nat /\
    carries req "video" f /\
    rejects env (CallBunWrite filePath) = false /\
    rejects env (CallS3Write key) = false /\
    exitCode (probe_of env w1 filePath) = 0 /\
    streams (stdout_json (probe_of env w1 filePath)) = s :: rest /\
    width s = Some wd /\ height s = Some ht /\
    truthy_number (Some wd) = true /\ truthy_number (Some ht) = true /\
    exitCode (remux_of env w2 filePath) = 0 /\
    disk w3 !! (filePath +:+ ".processed") = Some content /\
    l = [EvBunWrite filePath;
         EvSpawn ["ffprobe"; "-v"; "error"; "-select_streams"; "v:0";
                  "-show_entries"; "stream=width,height"; "-of"; "json";
                  "-show_streams"; filePath];
         EvSpawn ["ffmpeg"; "-i"; filePath; "-movflags"; "faststart";
                  "-map_metadata"; "0"; "-codec"; "copy"; "-f"; "mp4";
                  filePath +:+ ".processed"];
         EvS3Write key (file_type f);
         EvDelete filePath; EvDelete (filePath +:+ ".processed");
         EvUpdateVideo v] /\
    bucket w' = <[key := mkS3Object content (file_type f)]> (bucket w) /\
    body resp = Some v /\
    find_video (db w') (id v) = Some v /\
    videoURL v
    = Some ("https://" +:+ s3Bucket cfg +:+ ".s3." +:+ s3Region cfg
              +:+ ".amazonaws.com/" +:+ key).
Proof.
  revert r w' l. by_run. wp_run_pruning.
  all: intros resp' [= <-].
  match goal with
  | Hf : find_video _ ?s = Some ?v |- _ =>
      pose proof (find_video_id _ _ _ Hf) as Hid; subst s
  end.
  bool_hyps.
  match goal with
  | Ht : truthy_number (height ?s) = true |- _ =>
      destruct (truthy_number_nonzero _ Ht) as (ht & Hht & _);
      rewrite Hht in Ht
  end.
  match goal with
  | Ht : truthy_number (width ?s) = true |- _ =>
      destruct (truthy_number_nonzero _ Ht) as (wd & Hwd & _);
      rewrite Hwd in Ht
  end.
  repeat match goal with
  | Hx : (exitCode _ =? 0)%Z = true |- _ => apply Z.eqb_eq in Hx
  end.
  eexists _, _, _, _, wd, ht, _, _. cbv zeta.
  unfold after_write, after_process, probe_of, remux_of. cbn [disk].
  split; [reflexivity|].
  split; [by rewrite List.length_map, List.length_seq|].
  split; [eassumption|].
  split; [assumption|].
  rewrite Hwd, Hht in *. cbn [Videos.to_number] in *.
  split; [assumption|].
  split; [assumption|].
  split; [eassumption|].
  split; [reflexivity|]. split; [reflexivity|].
  split; [assumption|]. split; [assumption|].
  split; [assumption|].
  split; [eassumption|].
  split; [reflexivity|].
  split; [reflexivity|].
  cbn [body db].
  split; [eapply find_after_update; [eassumption|reflexivity]|].
  split; [|reflexivity].
  change (id (set_videoURL ?v ?u)) with (id v).
  eapply find_after_update; [eassumption|reflexivity].
Qed.
End Keys.

(** C8.  Video storage key and URL agree.  When the handler that remuxes
    succeeds, the local temporary file [filePath] is named by the hex
    encoding of 32 random bytes followed by [.mp4] and holds the bytes the
    client sent.  [getVideoAspectRatio] ran on that file and returned the
    classification of the width and height of the first stream the probe
    reported for it; [processVideoForFastStart] ran on that file next and
    returned [filePath.processed].  The upload took its body from that
    processed file, as it was on the disk after the remux, and stored it
    with the media type the client declared under the key
    [<aspectRatio>/<fileName>], the only change to the bucket.  The video URL
    of the record, as stored and as returned, is
    [https://<bucket>.s3.<region>.amazonaws.com/] followed by that same
    key. *)
Theorem video_key_and_url `{Collaborators} cfg req env w resp w' l :
  Videos.handlerUploadVideo cfg req env w = (Ok resp, w', l) ->
  exists rnd f s rest wd ht content v,
    let fileName := to_hex rnd +:+ ".mp4" in
    let filePath := path_join (assetsRoot cfg) fileName in
    let processedFilePath := filePath +:+ ".processed" in
    let w1 := after_write w filePath (file_data f) in
    let w2 := after_process w1 (probe_of env w1 filePath) in
    let w3 := after_process w2 (remux_of env w2 filePath) in
    let aspectRatio := Videos.classify (wd / ht) in
    let key := AspectRatio_to_string aspectRatio +:+ "/" +:+ fileName in
    let probe_cmd :=
      ["ffprobe"; "-v"; "error"; "-select_streams"; "v:0"; "-show_entries";
       "stream=width,height"; "-of"; "json"; "-show_streams"; filePath] in
    let remux_cmd :=
      ["ffmpeg"; "-i"; filePath; "-movflags"; "faststart"; "-map_metadata";
       "0"; "-codec"; "copy"; "-f"; "mp4"; processedFilePath] in
    randomBytes 32 env w = (Ok rnd, w, []) /\
    length rnd = 32%nat /\
    String.length fileName = 68%nat /\
    carries req "video" f /\
    Bun_write filePath (file_data f) env w
    = (Ok tt, w1, [EvBunWrite filePath]) /\
    streams (stdout_json (probe_of env w1 filePath)) = s :: rest /\
    width s = Some wd /\ height s = Some ht /\
    Videos.getVideoAspectRatio filePath env w1
    = (Ok aspectRatio, w2, [EvSpawn probe_cmd]) /\
    Videos.processVideoForFastStart filePath env w2
    = (Ok processedFilePath, w3, [EvSpawn remux_cmd]) /\
    disk w3 !! processedFilePath = Some content /\
    s3_write key processedFilePath (file_type f) env w3
    = (Ok tt,
       mkWorld (db w3) (disk w3)
               (<[key := mkS3Object content (file_type f)]> (bucket w3))
               (videoThumbnails w3),
       [EvS3Write key (file_type f)]) /\
    l = [EvBunWrite filePath; EvSpawn probe_cmd; EvSpawn remux_cmd;
         EvS3Write key (file_type f);
         EvDelete filePath; EvDelete processedFilePath; EvUpdateVideo v] /\
    bucket w' = <[key := mkS3Object content (file_type f)]> (bucket w) /\
    body resp = Some v /\
    find_video (db w') (id v) = Some v /\
    videoURL v
    = Some ("https://" +:+ s3Bucket cfg +:+ ".s3." +:+ s3Region cfg
              +:+ ".amazonaws.com/" +:+ key).
Proof.
  intros Hrun.
  destruct (transcode_key_url cfg req env w _ _ _ Hrun resp eq_refl)
    as (rnd & f & s & rest & wd & ht & content & v & Hrnd & Hlen & Hf
        & Hwrite & Hput & Hprobe & Hs & Hwd & Hht & Htw & Hth & Hremux
        & Hfile & Hl & Hb & Hbody & Hdb & Hurl).
  cbv zeta in Hwrite, Hput, Hprobe, Hs, Hremux, Hfile, Hl, Hb, Hurl.
  exists rnd, f, s, rest, wd, ht, content, v. cbv zeta.
  split; [exact Hrnd|]. split; [exact Hlen|].
  split; [rewrite append_length, to_hex_length, Hlen; reflexivity|].
  split; [exact Hf|].
  split; [exact (Bun_write_world _ _ _ _ Hwrite)|].
  split; [exact Hs|]. split; [exact Hwd|]. split; [exact Hht|].
  split; [exact (probe_run _ _ _ _ _ _ _ Hprobe Hs Hwd Hht Htw Hth)|].
  split; [exact (remux_run _ _ _ Hremux)|].
  split; [exact Hfile|].
  split; [exact (s3_write_world _ _ _ _ _ _ Hput Hfile)|].
  split; [exact Hl|]. split; [exact Hb|]. split; [exact Hbody|].
  split; [exact Hdb|exact Hurl].
Qed.

(** The demo upload: the probe reports 1920 by 1080, so the object is under
    [landscape/]; its bytes are those the remux wrote, not those the client
    sent. *)
Lemma video_key_and_url_witness :
  exists name v,
    String.length name = 68%nat /\
    bucket (Videos.handlerUploadVideo (H := demo_collaborators) demo_cfg
              demo_video_request demo_env demo_world).1.2
    = {[ "landscape/" +:+ name
         := mkS3Object [Byte.x66; Byte.x74; Byte.x79; Byte.x70] "video/mp4" ]}
    /\
    find_video
      (db (Videos.handlerUploadVideo (H := demo_collaborators) demo_cfg
             demo_video_request demo_env demo_world).1.2) "V" = Some v /\
    videoURL v
    = Some ("https://tubely.s3.us-east-2.amazonaws.com/landscape/" +:+ name).
Proof.
  eassert (Hr : (Videos.handlerUploadVideo (H := demo_collaborators) demo_cfg
                   demo_video_request demo_env demo_world).1.1 = Ok _)
    by (vm_compute; reflexivity).
  destruct (@video_key_and_url demo_collaborators demo_cfg
              demo_video_request demo_env demo_world _ _ _
              (outcome_ok _ _ Hr))
    as (rnd & f & s & rest & wd & ht & content & v & _ & _ & Hname & Hf
        & _ & Hs & Hwd & Hht & _ & _ & Hfile & _ & _ & Hb & Hbody & Hdb
        & Hurl).
  cbv zeta in Hname, Hs, Hfile, Hb, Hurl.
  injection Hf as <-.
  change (streams (stdout_json (probe_of demo_env _ _)))
    with [mkStream (Some 1920%float) (Some 1080%float)] in Hs.
  injection Hs as <- <-. injection Hwd as <-. injection Hht as <-.
  change (Videos.classify (1920 / 1080)) with Landscape in Hb, Hurl.
  injection Hbody as <-.
  assert (content = [Byte.x66; Byte.x74; Byte.x79; Byte.x70]) as ->.
  { unfold after_process, after_write, remux_of, probe_of in Hfile.
    cbn in Hfile. rewrite lookup_insert_eq in Hfile. by injection Hfile. }
  exists (to_hex rnd +:+ ".mp4"). eexists.
  split; [exact Hname|].
  split; [rewrite Hb; apply insert_empty|].
  split; [exact Hdb|exact Hurl].
Defined.

(** * Further properties of the handlers *)

(** ** Retrieval of in-memory thumbnails *)

Section GetThumbnail.
Variables (cfg : ApiConfig) (req : BunRequest) (env : Env) (w : World).

Lemma get_thumbnail_outcome :
  ThumbnailsMemory.handlerGetThumbnail cfg req env w
  = (match params_videoId req with
     | None => Err (BadRequestError "Invalid video ID")
     | Some vid =>
         if negb (truthy_string vid)
         then Err (BadRequestError "Invalid video ID")
         else match find_video (db w) vid with
              | None => Err (NotFoundError "Couldn't find video")
              | Some _ =>
                  match videoThumbnails w !! vid with
                  | None => Err (NotFoundError "Thumbnail not found")
                  | Some t =>
                      Ok (mkRawResponse 200 (data t)
                            [("Content-Type", mediaType t);
                             ("Cache-Control", "no-store")])
                  end
              end
     end, w, []).
Proof.
  destruct (ThumbnailsMemory.handlerGetThumbnail cfg req env w)
    as [[r w'] l] eqn:Hrun.
  revert r w' l Hrun. by_run. wp_run_handler.
  all: repeat match goal with Hc : _ = _ |- _ => rewrite Hc end; reflexivity.
Qed.
End GetThumbnail.

(** The retrieval handler reads the video id and nothing else of the
    request, and asks for no token: from one configuration and one state of
    the record store and the thumbnail map, two requests for the same id get
    the same answer, whatever their headers and forms, and whatever the
    random source and the external tools would do.  It changes nothing and
    logs nothing. *)
Theorem get_thumbnail_reads_id_only cfg req req' env env' w :
  params_videoId req = params_videoId req' ->
  ThumbnailsMemory.handlerGetThumbnail cfg req env w
  = ThumbnailsMemory.handlerGetThumbnail cfg req' env' w /\
  (ThumbnailsMemory.handlerGetThumbnail cfg req env w).1.2 = w /\
  (ThumbnailsMemory.handlerGetThumbnail cfg req env w).2 = [].
Proof.
  intros Hid. rewrite !get_thumbnail_outcome, Hid. by repeat split.
Qed.

(** A request with the owner's token and one with no header at all. *)
Lemma get_thumbnail_reads_id_only_witness :
  ThumbnailsMemory.handlerGetThumbnail demo_cfg
    (demo_request "V" "U1" []) demo_env demo_world
  = ThumbnailsMemory.handlerGetThumbnail demo_cfg
      (mkRequest (Some "V") [] []) (demo_env_with 1 1 1) demo_world.
Proof.
  exact (proj1 (get_thumbnail_reads_id_only demo_cfg
                  (demo_request "V" "U1" []) (mkRequest (Some "V") [] [])
                  demo_env (demo_env_with 1 1 1) demo_world eq_refl)).
Defined.

(** Errors of the retrieval handler: a missing or empty id is an invalid
    request; an id without record is not-found even when bytes are cached
    under it; a record without cached bytes is not-found. *)
Theorem get_thumbnail_errors cfg req env w :
  (params_videoId req = None \/ params_videoId req = Some "" ->
   (ThumbnailsMemory.handlerGetThumbnail cfg req env w).1.1
   = Err (BadRequestError "Invalid video ID")) /\
  (forall vid, params_videoId req = Some vid -> truthy_string vid = true ->
     find_video (db w) vid = None ->
     (ThumbnailsMemory.handlerGetThumbnail cfg req env w).1.1
     = Err (NotFoundError "Couldn't find video")) /\
  (forall vid v, params_videoId req = Some vid -> truthy_string vid = true ->
     find_video (db w) vid = Some v -> videoThumbnails w !! vid = None ->
     (ThumbnailsMemory.handlerGetThumbnail cfg req env w).1.1
     = Err (NotFoundError "Thumbnail not found")).
Proof.
  rewrite get_thumbnail_outcome. cbn [fst]. split; [|split].
  - intros [-> | ->]; reflexivity.
  - intros vid -> -> ->. reflexivity.
  - intros vid v -> -> -> ->. reflexivity.
Qed.

Lemma get_thumbnail_errors_witness :
  (ThumbnailsMemory.handlerGetThumbnail demo_cfg
     (demo_request "V" "U1" []) demo_env demo_world).1.1
  = Err (NotFoundError "Thumbnail not found").
Proof.
  exact (proj2 (proj2 (get_thumbnail_errors demo_cfg
                         (demo_request "V" "U1" []) demo_env demo_world))
           "V" demo_video eq_refl eq_refl eq_refl eq_refl).
Defined.

Section MemoryRoundTrip.
Context `{Collaborators}.

(** What a successful in-memory upload leaves behind. *)
Lemma memory_upload_state cfg req env w r w' l :
  ThumbnailsMemory.handlerUploadThumbnail cfg req env w = (r, w', l) ->
  forall resp, r = Ok resp ->
  exists vid f new,
    params_videoId req = Some vid /\ truthy_string vid = true /\
    carries req "thumbnail" f /\
    find_video (db w') vid = Some new /\
    videoThumbnails w' !! vid = Some (mkThumbnail (file_data f) (file_type f)).
Proof.
  revert r w' l. by_run. wp_run_pruning.
  all: intros resp' [= <-].
  match goal with
  | Hf : find_video _ ?s = Some ?v |- _ =>
      pose proof (find_video_id _ _ _ Hf) as Hid; subst s
  end.
  bool_hyps.
  eexists _, _, _. split; [reflexivity|]. split; [assumption|].
  split; [eassumption|]. cbn [db videoThumbnails].
  split; [eapply find_after_update; [eassumption|reflexivity]|].
  apply lookup_insert_eq.
Qed.

(** The thumbnail map is written at the request's video id only, whatever
    the outcome. *)
Lemma memory_upload_other_keys cfg req env w r w' l :
  ThumbnailsMemory.handlerUploadThumbnail cfg req env w = (r, w', l) ->
  forall k, params_videoId req <> Some k ->
  videoThumbnails w' !! k = videoThumbnails w !! k.
Proof.
  revert r w' l. by_run. wp_run_pruning.
  all: intros k Hk; cbn [videoThumbnails]; try reflexivity.
  all: match goal with
       | Hf : find_video _ ?s = Some ?v |- _ =>
           pose proof (find_video_id _ _ _ Hf) as Hid
       end.
  all: apply lookup_insert_ne; congruence.
Qed.
End MemoryRoundTrip.

(** Round trip of the in-memory variant: after a successful upload, the
    retrieval handler answers any request for the same video id with status
    200, exactly the uploaded bytes, the declared media type as
    [Content-Type] and [Cache-Control: no-store]; thumbnails cached for
    other videos are as they were. *)
Theorem upload_then_get `{Collaborators} cfg req env w resp w' l :
  ThumbnailsMemory.handlerUploadThumbnail cfg req env w = (Ok resp, w', l) ->
  exists f,
    carries req "thumbnail" f /\
    (forall cfg' req' env',
       params_videoId req' = params_videoId req ->
       ThumbnailsMemory.handlerGetThumbnail cfg' req' env' w'
       = (Ok (mkRawResponse 200 (file_data f)
                [("Content-Type", file_type f);
                 ("Cache-Control", "no-store")]), w', [])) /\
    (forall k, params_videoId req <> Some k ->
       videoThumbnails w' !! k = videoThumbnails w !! k).
Proof.
  intros Hrun.
  destruct (memory_upload_state cfg req env w _ _ _ Hrun resp eq_refl)
    as (vid & f & new & Hp & Ht & Hc & Hf & Hm).
  exists f. split; [exact Hc|]. split.
  - intros cfg' req' env' Hid.
    rewrite get_thumbnail_outcome, Hid, Hp, Ht, Hf, Hm. reflexivity.
  - by eapply memory_upload_other_keys.
Qed.

Lemma upload_then_get_witness :
  exists w' l,
    (ThumbnailsMemory.handlerUploadThumbnail (H := demo_collaborators)
       demo_cfg
       (demo_request "V" "U1" [("thumbnail", FormFile (demo_png 2048))])
       demo_env demo_world).1.2 = w' /\
    ThumbnailsMemory.handlerGetThumbnail demo_cfg (mkRequest (Some "V") [] [])
      demo_env w'
    = (Ok (mkRawResponse 200 (file_data (demo_png 2048))
             [("Content-Type", "image/png"); ("Cache-Control", "no-store")]),
       w', l).
Proof.
  destruct (ThumbnailsMemory.handlerUploadThumbnail (H := demo_collaborators)
      demo_cfg
      (demo_request "V" "U1" [("thumbnail", FormFile (demo_png 2048))])
      demo_env demo_world) as [[r w'] l] eqn:Hrun.
  pose proof Hrun as Hval. vm_compute in Hval.
  injection Hval as Hr _ _. subst r.
  destruct (@upload_then_get demo_collaborators _ _ _ _ _ _ _ Hrun)
    as (f & Hc & Hget & _).
  injection Hc as <-.
  exists w', []. split; [reflexivity|].
  exact (Hget demo_cfg (mkRequest (Some "V") [] []) demo_env eq_refl).
Defined.

(** ** Order of the checks *)

Section CheckOrder.
Context `{Collaborators}.

(** A missing or empty video id is refused first, in all four handlers:
    before the token is looked at, with nothing read or changed. *)
Theorem invalid_id_first (h : ApiConfig -> BunRequest -> M Response)
    cfg req env w :
  In h upload_handlers ->
  params_videoId req = None \/ params_videoId req = Some "" ->
  h cfg req env w = (Err (BadRequestError "Invalid video ID"), w, []).
Proof.
  intros Hin Hid.
  destruct (h cfg req env w) as [[r w'] l] eqn:Hrun.
  revert r w' l Hrun. by_run.
  repeat (destruct Hin as [<-|Hin]); [..|destruct Hin].
  all: destruct Hid as [Hid|Hid].
  all: unfold VideosDirect.handlerUploadVideo, Videos.handlerUploadVideo,
         ThumbnailsDisk.handlerUploadThumbnail,
         ThumbnailsMemory.handlerUploadThumbnail; rewrite Hid.
  all: first [ apply wp_throw; reflexivity
             | apply wp_throw_if; [reflexivity | discriminate] ].
Qed.

(** With a video id, a token that is missing or does not validate ends the
    request with the error [auth] raised, unchanged: the form is not read
    and the record store is not consulted, so the answer is the same
    whether or not the video exists. *)
Theorem auth_failure_first (h : ApiConfig -> BunRequest -> M Response)
    cfg req env w vid e :
  In h upload_handlers ->
  params_videoId req = Some vid -> truthy_string vid = true ->
  getBearerToken (headers req) = Err e \/
  (exists tok, getBearerToken (headers req) = Ok tok /\
               validateJWT tok (jwtSecret cfg) = Err e) ->
  h cfg req env w = (Err e, w, []).
Proof.
  intros Hin Hp Ht Hauth.
  destruct (h cfg req env w) as [[r w'] l] eqn:Hrun.
  revert r w' l Hrun. by_run.
  repeat (destruct Hin as [<-|Hin]); [..|destruct Hin].
  all: destruct Hauth as [Hg|(tok & Hg & Hv)].
  all: unfold VideosDirect.handlerUploadVideo, Videos.handlerUploadVideo,
         ThumbnailsDisk.handlerUploadThumbnail,
         ThumbnailsMemory.handlerUploadThumbnail; rewrite Hp.
  all: apply wp_throw_if; [rewrite Ht; discriminate | intros _].
  all: apply wp_bind; rewrite Hg; apply wp_lift; cbv beta iota;
       try reflexivity.
  all: apply wp_bind; rewrite Hv; apply wp_lift; reflexivity.
Qed.
End CheckOrder.

Lemma invalid_id_first_witness :
  Videos.handlerUploadVideo (H := demo_collaborators) demo_cfg
    (mkRequest (Some "") [] [("video", FormFile (demo_mp4 2048))])
    demo_env demo_world
  = (Err (BadRequestError "Invalid video ID"), demo_world, []).
Proof.
  exact (@invalid_id_first demo_collaborators Videos.handlerUploadVideo
           demo_cfg
           (mkRequest (Some "") [] [("video", FormFile (demo_mp4 2048))])
           demo_env demo_world (or_intror (or_introl eq_refl))
           (or_intror eq_refl)).
Defined.

Lemma auth_failure_first_witness :
  ThumbnailsDisk.handlerUploadThumbnail (H := demo_collaborators) demo_cfg
    (mkRequest (Some "nowhere") [("Authorization", "Bearer wrong:U1")] [])
    demo_env demo_world
  = (Err (UserNotAuthenticatedError "Invalid token"), demo_world, []).
Proof.
  refine (@auth_failure_first demo_collaborators
            ThumbnailsDisk.handlerUploadThumbnail demo_cfg
            (mkRequest (Some "nowhere")
               [("Authorization", "Bearer wrong:U1")] [])
            demo_env demo_world "nowhere" _ _ eq_refl eq_refl _).
  - right; right; left; reflexivity.
  - right. exists "wrong:U1". split; reflexivity.
Defined.

(** ** What a request can touch *)

Lemma replace_video_ids tbl v :
  List.map id (replace_video tbl v) = List.map id tbl.
Proof.
  unfold replace_video. induction tbl as [|r tbl IH]; [reflexivity|].
  cbn [List.map]. rewrite IH. f_equal.
  destruct (String.eqb (id r) (id v)) eqn:E; [|reflexivity].
  symmetry. by apply String.eqb_eq.
Qed.

Section Footprint.
Context `{Collaborators}.

(** No upload creates or deletes a record, and the records of other videos
    are never changed, whatever the outcome. *)
Theorem other_records_untouched (h : ApiConfig -> BunRequest -> M Response)
    cfg req env w r w' l :
  In h upload_handlers ->
  h cfg req env w = (r, w', l) ->
  List.map id (db w') = List.map id (db w) /\
  (forall k, params_videoId req <> Some k ->
     find_video (db w') k = find_video (db w) k).
Proof.
  intros Hin. revert r w' l. by_run.
  repeat (destruct Hin as [<-|Hin]); [..|destruct Hin].
  all: wp_run_pruning.
  all: cbn [db]; split; [first [reflexivity | apply replace_video_ids]|].
  all: intros k Hk; try reflexivity.
  all: match goal with
       | Hf : find_video _ ?s = Some ?v |- _ =>
           pose proof (find_video_id _ _ _ Hf) as Hid
       end.
  all: apply find_replace_other; cbn; congruence.
Qed.

(** The thumbnail handlers never touch the bucket and start no process;
    the disk variant leaves the thumbnail map alone and the in-memory
    variant the disk.  The video handlers never touch the thumbnail map. *)
Theorem store_footprint cfg req env w :
  (forall r w' l,
     ThumbnailsDisk.handlerUploadThumbnail cfg req env w = (r, w', l) ->
     bucket w' = bucket w /\ videoThumbnails w' = videoThumbnails w /\
     forall ev, In ev l ->
       (exists p, ev = EvBunWrite p) \/ (exists v, ev = EvUpdateVideo v)) /\
  (forall r w' l,
     ThumbnailsMemory.handlerUploadThumbnail cfg req env w = (r, w', l) ->
     bucket w' = bucket w /\ disk w' = disk w /\
     forall ev, In ev l ->
       (exists k, ev = EvThumbnailSet k) \/ (exists v, ev = EvUpdateVideo v)) /\
  (forall h r w' l,
     In h video_handlers -> h cfg req env w = (r, w', l) ->
     videoThumbnails w' = videoThumbnails w /\
     forall ev, In ev l -> forall k, ev <> EvThumbnailSet k).
Proof.
  split; [|split].
  - by_run. wp_run_pruning.
    all: repeat split; intros ev Hev; cbn [In] in Hev.
    all: repeat (destruct Hev as [<-|Hev]); try done.
    all: first [ left; eexists; reflexivity | right; eexists; reflexivity ].
  - by_run. wp_run_pruning.
    all: repeat split; intros ev Hev; cbn [In] in Hev.
    all: repeat (destruct Hev as [<-|Hev]); try done.
    all: first [ left; eexists; reflexivity | right; eexists; reflexivity ].
  - intros h r w' l Hin. revert r w' l. by_run.
    repeat (destruct Hin as [<-|Hin]); [..|destruct Hin].
    all: wp_run_pruning.
    all: split; [reflexivity|]; intros ev Hev; cbn [In] in Hev.
    all: repeat (destruct Hev as [<-|Hev]); done.
Qed.

(** [updateVideo] is called at most once in a request and is then the last
    thing the handler does to the outside; a successful upload always ends
    with it. *)
Theorem update_is_last (h : ApiConfig -> BunRequest -> M Response)
    cfg req env w r w' l :
  In h upload_handlers ->
  h cfg req env w = (r, w', l) ->
  (forall ev, In ev (removelast l) -> is_update ev = false) /\
  (forall resp, r = Ok resp -> exists v, last l = Some (EvUpdateVideo v)).
Proof.
  intros Hin. revert r w' l. by_run.
  repeat (destruct Hin as [<-|Hin]); [..|destruct Hin].
  all: wp_run_pruning.
  all: split; [intros ev Hev; cbn [removelast In] in Hev;
               repeat (destruct Hev as [<-|Hev]); done|].
  all: intros resp' [=]. all: eexists; reflexivity.
Qed.
End Footprint.

(** ** Generated file names *)

Lemma below_16 (n : N) :
  (n < 16)%N ->
  n = 0%N \/ n = 1%N \/ n = 2%N \/ n = 3%N \/ n = 4%N \/ n = 5%N \/
  n = 6%N \/ n = 7%N \/ n = 8%N \/ n = 9%N \/ n = 10%N \/ n = 11%N \/
  n = 12%N \/ n = 13%N \/ n = 14%N \/ n = 15%N.
Proof. lia. Qed.

Lemma hex_digit_value n :
  (n < 16)%N -> hex_value (hex_digit n) = n /\ is_hex_char (hex_digit n) = true.
Proof.
  intros Hn. apply below_16 in Hn.
  repeat (destruct Hn as [->|Hn]); try subst n; split; reflexivity.
Qed.

Lemma byte_nibbles b :
  (Byte.to_N b / 16 < 16)%N /\ (Byte.to_N b mod 16 < 16)%N.
Proof.
  pose proof (Byte.to_N_bounded b). split.
  - apply N.Div0.div_lt_upper_bound. lia.
  - apply N.mod_lt. lia.
Qed.

Lemma to_hex_cons b bs :
  to_hex (b :: bs)
  = String (hex_digit (Byte.to_N b / 16))
      (String (hex_digit (Byte.to_N b mod 16)) (to_hex bs)).
Proof. reflexivity. Qed.

Lemma byte_to_N_inj a b : Byte.to_N a = Byte.to_N b -> a = b.
Proof.
  intros Hab. pose proof (Byte.of_to_N a) as Ha.
  rewrite Hab, Byte.of_to_N in Ha. congruence.
Qed.

(** The hex file name determines the random bytes: two requests get the
    same temporary name only if they drew the same 32 bytes. *)
Theorem to_hex_injective (xs ys : list Byte.byte) :
  to_hex xs = to_hex ys -> xs = ys.
Proof.
  revert ys. induction xs as [|x xs IH]; intros [|y ys];
    rewrite ?to_hex_cons; try discriminate; [reflexivity|].
  intros [= Hhi Hlo Hrest].
  destruct (byte_nibbles x) as [Hx1 Hx2], (byte_nibbles y) as [Hy1 Hy2].
  apply (f_equal hex_value) in Hhi, Hlo.
  rewrite !(proj1 (hex_digit_value _ Hx1)),
          !(proj1 (hex_digit_value _ Hy1)) in Hhi.
  rewrite !(proj1 (hex_digit_value _ Hx2)),
          !(proj1 (hex_digit_value _ Hy2)) in Hlo.
  f_equal; [|by apply IH].
  apply byte_to_N_inj.
  rewrite (N.div_mod (Byte.to_N x) 16), (N.div_mod (Byte.to_N y) 16) by lia.
  congruence.
Qed.

Lemma to_hex_injective_witness :
  [Byte.x0a; Byte.xff] = [Byte.x0a; Byte.xff].
Proof. exact (to_hex_injective _ _ (eq_refl (to_hex [Byte.x0a; Byte.xff]))). Defined.

(** A hex name has two characters per byte, all of them in [0-9a-f]: the
    name of a temporary video file has 64 such characters before its
    extension and no path separator. *)
Theorem to_hex_shape (bs : list Byte.byte) :
  String.length (to_hex bs) = (2 * length bs)%nat /\
  string_forall is_hex_char (to_hex bs) = true.
Proof.
  split; [apply to_hex_length|].
  induction bs as [|b bs IH]; [reflexivity|].
  rewrite to_hex_cons. cbn [string_forall].
  destruct (byte_nibbles b) as [H1 H2].
  rewrite (proj2 (hex_digit_value _ H1)), (proj2 (hex_digit_value _ H2)), IH.
  reflexivity.
Qed.

Lemma below_64 (n : N) :
  (n < 64)%N ->
  exists k : nat, (k < 64)%nat /\ n = N.of_nat k.
Proof. intros Hn. exists (N.to_nat n). lia. Qed.

Lemma b64url_digit_safe n : is_urlsafe_char (b64url_digit n) = true.
Proof.
  destruct (N.ltb_spec n 64) as [Hn|Hn].
  - apply below_64 in Hn as (k & Hk & ->).
    do 64 (destruct k as [|k]; [reflexivity|]). lia.
  - unfold b64url_digit.
    rewrite (proj2 (N.ltb_ge n 26)), (proj2 (N.ltb_ge n 52)),
            (proj2 (N.ltb_ge n 62)) by lia.
    rewrite (proj2 (N.eqb_neq n 62)) by lia. reflexivity.
Qed.

Lemma to_base64url_1 a :
  to_base64url [a]
  = String (b64url_digit (Byte.to_N a / 4))
      (String (b64url_digit (Byte.to_N a mod 4 * 16)) EmptyString).
Proof. reflexivity. Qed.

Lemma to_base64url_2 a b :
  to_base64url [a; b]
  = String (b64url_digit (Byte.to_N a / 4))
      (String (b64url_digit (Byte.to_N a mod 4 * 16 + Byte.to_N b / 16))
         (String (b64url_digit (Byte.to_N b mod 16 * 4)) EmptyString)).
Proof. reflexivity. Qed.

Lemma to_base64url_3 a b c bs :
  to_base64url (a :: b :: c :: bs)
  = String (b64url_digit (Byte.to_N a / 4))
      (String (b64url_digit (Byte.to_N a mod 4 * 16 + Byte.to_N b / 16))
         (String (b64url_digit (Byte.to_N b mod 16 * 4 + Byte.to_N c / 64))
            (String (b64url_digit (Byte.to_N c mod 64)) (to_base64url bs)))).
Proof. reflexivity. Qed.

Lemma list_ind3 {A} (P : list A -> Prop) :
  P [] -> (forall a, P [a]) -> (forall a b, P [a; b]) ->
  (forall a b c l, P l -> P (a :: b :: c :: l)) ->
  forall l, P l.
Proof.
  intros H0 H1 H2 H3.
  enough (forall l, P l /\ (forall a, P (a :: l)) /\ (forall a b, P (a :: b :: l)))
    as Hall by (intros l; apply Hall).
  induction l as [|x l (IHa & IHb & IHc)]; [by repeat split|].
  split; [apply IHb|]. split; [intros a; apply IHc|].
  intros a b. by apply H3.
Qed.

(** A base64url name uses the URL-safe alphabet only (letters, digits, [-]
    and [_]: no [/], [+], [.] or padding) and has ceil(4n/3) characters: 43
    for the 32 random bytes of a thumbnail file name. *)
Theorem to_base64url_shape (bs : list Byte.byte) :
  string_forall is_urlsafe_char (to_base64url bs) = true /\
  String.length (to_base64url bs) = ((4 * length bs + 2) / 3)%nat.
Proof.
  induction bs as [|a|a b|a b c bs [IH1 IH2]] using list_ind3.
  - by split.
  - rewrite to_base64url_1. split; [|reflexivity].
    cbn [string_forall]. by rewrite !b64url_digit_safe.
  - rewrite to_base64url_2. split; [|reflexivity].
    cbn [string_forall]. by rewrite !b64url_digit_safe.
  - rewrite to_base64url_3. split.
    + cbn [string_forall]. by rewrite !b64url_digit_safe, IH1.
    + cbn [String.length length]. rewrite IH2.
      replace (4 * S (S (S (length bs))) + 2)%nat
        with ((4 * length bs + 2) + 4 * 3)%nat by lia.
      rewrite Nat.div_add by lia. lia.
Qed.

Lemma b64url_digit_value n : (n < 64)%N -> b64url_value (b64url_digit n) = n.
Proof.
  intros Hn. apply below_64 in Hn as (k & Hk & ->).
  do 64 (destruct k as [|k]; [reflexivity|]). lia.
Qed.

Lemma b64url_digit_inj n m :
  (n < 64)%N -> (m < 64)%N -> b64url_digit n = b64url_digit m -> n = m.
Proof.
  intros Hn Hm Heq. apply (f_equal b64url_value) in Heq.
  by rewrite !b64url_digit_value in Heq.
Qed.

Lemma byte_parts b :
  (Byte.to_N b / 4 < 64 /\ Byte.to_N b mod 4 < 4 /\
   Byte.to_N b / 16 < 16 /\ Byte.to_N b mod 16 < 16 /\
   Byte.to_N b / 64 < 4 /\ Byte.to_N b mod 64 < 64 /\
   Byte.to_N b = 4 * (Byte.to_N b / 4) + Byte.to_N b mod 4 /\
   Byte.to_N b = 16 * (Byte.to_N b / 16) + Byte.to_N b mod 16 /\
   Byte.to_N b = 64 * (Byte.to_N b / 64) + Byte.to_N b mod 64)%N.
Proof.
  pose proof (Byte.to_N_bounded b).
  repeat split;
    first [ apply N.Div0.div_lt_upper_bound; lia
          | apply N.mod_lt; lia
          | apply N.div_mod; lia ].
Qed.

Ltac sextets :=
  repeat match goal with
  | b : Byte.byte |- _ =>
      lazymatch goal with
      | _ : (Byte.to_N b / 4 < 64)%N |- _ => fail
      | _ => destruct (byte_parts b) as (? & ? & ? & ? & ? & ? & ? & ? & ?)
      end
  end.

Ltac digit_eq H := apply b64url_digit_inj in H; [ | lia | lia ].

(** The base64url file name determines the random bytes: two thumbnail
    uploads get the same file name only if they drew the same bytes. *)
Theorem to_base64url_injective (xs ys : list Byte.byte) :
  to_base64url xs = to_base64url ys -> xs = ys.
Proof.
  revert ys. induction xs as [|a|a b|a b c xs IH] using list_ind3;
    intros ys; destruct ys as [|a' [|b' [|c' ys]]];
    rewrite ?to_base64url_1, ?to_base64url_2, ?to_base64url_3;
    try reflexivity; try discriminate.
  - intros [= H1 H2]. sextets. digit_eq H1. digit_eq H2.
    f_equal. apply byte_to_N_inj. lia.
  - intros [= H1 H2 H3]. sextets. digit_eq H1. digit_eq H2. digit_eq H3.
    assert (Byte.to_N a = Byte.to_N a' /\ Byte.to_N b = Byte.to_N b')
      as [Ha Hb] by lia.
    apply byte_to_N_inj in Ha, Hb. congruence.
  - intros [= H1 H2 H3 H4 Hrest]. sextets.
    digit_eq H1. digit_eq H2. digit_eq H3. digit_eq H4.
    assert (Byte.to_N a = Byte.to_N a' /\ Byte.to_N b = Byte.to_N b' /\
            Byte.to_N c = Byte.to_N c')
      as (Ha & Hb & Hc) by lia.
    apply byte_to_N_inj in Ha, Hb, Hc. apply IH in Hrest. congruence.
Qed.

Lemma to_base64url_injective_witness :
  [Byte.x4d; Byte.x61] = [Byte.x4d; Byte.x61].
Proof.
  exact (to_base64url_injective _ _
           (eq_refl (to_base64url [Byte.x4d; Byte.x61]))).
Defined.

(** ** Names of the files the handlers write *)

Lemma outcome_eta {A} (o : result A * World * list Event) :
  o = (o.1.1, o.1.2, o.2).
Proof. by destruct o as [[r w] l]. Qed.

Section WrittenNames.
Context `{Collaborators}.

(** Every local file a video handler writes is, inside the asset
    directory, 64 lower-case hex characters followed by [.mp4]. *)
Theorem video_temp_name (h : ApiConfig -> BunRequest -> M Response)
    cfg req env w r w' l p :
  In h video_handlers ->
  h cfg req env w = (r, w', l) ->
  In (EvBunWrite p) l ->
  exists name,
    p = path_join (assetsRoot cfg) (name +:+ ".mp4") /\
    String.length name = 64%nat /\ string_forall is_hex_char name = true.
Proof.
  intros Hin Hrun. revert p. revert r w' l Hrun. by_run.
  repeat (destruct Hin as [<-|Hin]); [..|destruct Hin].
  all: wp_run_pruning.
  all: intros p Hp; in_log Hp.
  all: apply EvBunWrite_inj in Hp as <-.
  all: eexists; split; [reflexivity|].
  all: destruct (to_hex_shape (List.map (entropy env) (seq 0 32))) as [Hl Hc].
  all: rewrite List.length_map, List.length_seq in Hl; by split.
Qed.

(** Every file the disk thumbnail handler writes is, inside the asset
    directory, 43 URL-safe characters followed by [.png] or [.jpeg]. *)
Theorem thumbnail_file_name cfg req env w r w' l p :
  ThumbnailsDisk.handlerUploadThumbnail cfg req env w = (r, w', l) ->
  In (EvBunWrite p) l ->
  exists name ext,
    p = path_join (assetsRoot cfg) (name +:+ "." +:+ ext) /\
    String.length name = 43%nat /\
    string_forall is_urlsafe_char name = true /\
    (ext = "png" \/ ext = "jpeg").
Proof.
  intros Hrun. revert p. revert r w' l Hrun. by_run. wp_run_pruning.
  all: intros p Hp; in_log Hp.
  all: apply EvBunWrite_inj in Hp as <-.
  all: bool_hyps.
  all: match goal with
       | Hi : includes _ _ = true |- _ => rename Hi into Hty
       end.
  all: apply includes_allowed in Hty.
  all: destruct allowed_subtype as [Hpng Hjpeg].
  all: destruct (to_base64url_shape (List.map (entropy env) (seq 0 32)))
         as [Hc Hl].
  all: rewrite List.length_map, List.length_seq in Hl.
  all: destruct Hty as [Hty|Hty]; rewrite Hty, ?Hpng, ?Hjpeg.
  all: eexists _, _; split; [reflexivity|]; split; [exact Hl|];
       split; [exact Hc|]; tauto.
Qed.
End WrittenNames.

Lemma video_temp_name_witness :
  exists p name,
    In (EvBunWrite p)
       (Videos.handlerUploadVideo (H := demo_collaborators) demo_cfg
          (demo_request "V" "U1" [("video", FormFile (demo_mp4 2048))])
          demo_env demo_world).2 /\
    p = "/srv/assets" +:+ "/" +:+ (name +:+ ".mp4") /\
    String.length name = 64%nat.
Proof.
  eassert (Hin : In (EvBunWrite _)
             (Videos.handlerUploadVideo (H := demo_collaborators) demo_cfg
                (demo_request "V" "U1" [("video", FormFile (demo_mp4 2048))])
                demo_env demo_world).2)
    by (vm_compute; left; reflexivity).
  destruct (@video_temp_name demo_collaborators Videos.handlerUploadVideo
              _ _ _ _ _ _ _ _ (or_intror (or_introl eq_refl))
              (outcome_eta _) Hin)
    as (name & Hname & Hlen & _).
  eexists _, name. split; [exact Hin|]. split; [exact Hname|exact Hlen].
Defined.

Lemma thumbnail_file_name_witness :
  exists p name ext,
    In (EvBunWrite p)
       (ThumbnailsDisk.handlerUploadThumbnail (H := demo_collaborators)
          demo_cfg
          (demo_request "V" "U1" [("thumbnail", FormFile (demo_png 2048))])
          demo_env demo_world).2 /\
    p = "/srv/assets" +:+ "/" +:+ (name +:+ "." +:+ ext) /\
    String.length name = 43%nat.
Proof.
  eassert (Hin : In (EvBunWrite _)
             (ThumbnailsDisk.handlerUploadThumbnail (H := demo_collaborators)
                demo_cfg
                (demo_request "V" "U1"
                   [("thumbnail", FormFile (demo_png 2048))])
                demo_env demo_world).2)
    by (vm_compute; left; reflexivity).
  destruct (@thumbnail_file_name demo_collaborators _ _ _ _ _ _ _ _
              (outcome_eta _) Hin)
    as (name & ext & Hname & Hlen & _).
  eexists _, name, ext. split; [exact Hin|]. split; [exact Hname|exact Hlen].
Defined.

(** ** What stays behind *)

Section Aftermath.
Context `{Collaborators}.

(** A request that fails never changes the record store, whatever failed:
    a validation, a tool, a write, a deletion or the update itself. *)
Theorem failed_request_keeps_store
    (h : ApiConfig -> BunRequest -> M Response) cfg req env w w' l e :
  In h upload_handlers ->
  h cfg req env w = (Err e, w', l) ->
  db w' = db w.
Proof.
  intros Hin Hrun.
  enough (Hall : forall r w' l, h cfg req env w = (r, w', l) ->
                   forall e, r = Err e -> db w' = db w)
    by (eapply Hall; [exact Hrun|reflexivity]).
  clear Hrun. by_run.
  repeat (destruct Hin as [<-|Hin]); [..|destruct Hin].
  all: wp_run_pruning.
  all: intros e' [=]; reflexivity.
Qed.

(** The video handlers delete the local files only after the upload: when a
    request that reached a deletion fails, the object is already in the
    bucket and stays there, while the record does not point to it. *)
Theorem orphaned_upload (h : ApiConfig -> BunRequest -> M Response)
    cfg req env w w' l e p :
  In h video_handlers ->
  h cfg req env w = (Err e, w', l) ->
  In (EvDelete p) l ->
  exists key ty,
    In (EvS3Write key ty) l /\ is_Some (bucket w' !! key) /\ db w' = db w.
Proof.
  intros Hin Hrun.
  enough (Hall : forall r w' l, h cfg req env w = (r, w', l) ->
                   forall e p, r = Err e -> In (EvDelete p) l ->
                   exists key ty,
                     In (EvS3Write key ty) l /\ is_Some (bucket w' !! key) /\
                     db w' = db w)
    by (intros Hp; eapply Hall; [exact Hrun|reflexivity|exact Hp]).
  clear Hrun. by_run.
  repeat (destruct Hin as [<-|Hin]); [..|destruct Hin].
  all: wp_run_pruning.
  all: intros e' p' [=] Hp; in_log Hp.
  all: eexists _, _; cbn [bucket db].
  all: split; [cbn [In]; eauto 8|].
  all: split; [rewrite lookup_insert_eq; by eexists|reflexivity].
Qed.

(** The in-memory variant stores the bytes before it updates the record and
    does not take them back: when the update fails, the new thumbnail is
    served although the record was not changed. *)
Theorem thumbnail_kept_on_failure cfg req env w w' l e k :
  ThumbnailsMemory.handlerUploadThumbnail cfg req env w = (Err e, w', l) ->
  In (EvThumbnailSet k) l ->
  exists f,
    carries req "thumbnail" f /\
    videoThumbnails w' !! k = Some (mkThumbnail (file_data f) (file_type f)) /\
    db w' = db w.
Proof.
  intros Hrun.
  enough (Hall : forall r w' l,
            ThumbnailsMemory.handlerUploadThumbnail cfg req env w = (r, w', l) ->
            forall e k, r = Err e -> In (EvThumbnailSet k) l ->
            exists f,
              carries req "thumbnail" f /\
              videoThumbnails w' !! k
              = Some (mkThumbnail (file_data f) (file_type f)) /\
              db w' = db w)
    by (intros Hk; eapply Hall; [exact Hrun|reflexivity|exact Hk]).
  clear Hrun. by_run. wp_run_pruning.
  all: intros e' k' [=] Hk; in_log Hk.
  injection Hk as <-.
  eexists. split; [eassumption|]. cbn [videoThumbnails db].
  split; [apply lookup_insert_eq|reflexivity].
Qed.

(** The handler of [src/api/videos.ts] uploads the bytes it received, under
    the bare file name as key (no aspect-ratio prefix) with the type
    [video/mp4], and persists the bucket URL of that key. *)
Theorem direct_upload_object cfg req env w resp w' l :
  VideosDirect.handlerUploadVideo cfg req env w = (Ok resp, w', l) ->
  exists rnd f v,
    randomBytes 32 env w = (Ok rnd, w, []) /\
    carries req "video" f /\ file_type f = "video/mp4" /\
    bucket w' !! (to_hex rnd +:+ ".mp4")
    = Some (mkS3Object (file_data f) "video/mp4") /\
    body resp = Some v /\
    videoURL v
    = Some ("https://" +:+ s3Bucket cfg +:+ ".s3." +:+ s3Region cfg
              +:+ ".amazonaws.com/" +:+ to_hex rnd +:+ ".mp4").
Proof.
  intros Hrun.
  enough (Hall : forall r w' l,
            VideosDirect.handlerUploadVideo cfg req env w = (r, w', l) ->
            forall resp, r = Ok resp ->
            exists rnd f v,
              randomBytes 32 env w = (Ok rnd, w, []) /\
              carries req "video" f /\ file_type f = "video/mp4" /\
              bucket w' !! (to_hex rnd +:+ ".mp4")
              = Some (mkS3Object (file_data f) "video/mp4") /\
              body resp = Some v /\
              videoURL v
              = Some ("https://" +:+ s3Bucket cfg +:+ ".s3." +:+ s3Region cfg
                        +:+ ".amazonaws.com/" +:+ to_hex rnd +:+ ".mp4"))
    by (eapply Hall; [exact Hrun|reflexivity]).
  clear Hrun. by_run. wp_run_pruning.
  all: intros resp' [= <-].
  match goal with
  | Hf : find_video _ ?s = Some ?v |- _ =>
      pose proof (find_video_id _ _ _ Hf) as Hid
  end.
  bool_hyps. cbn [disk] in *.
  match goal with
  | Hd : <[_ := _]> _ !! _ = Some _ |- _ =>
      rewrite lookup_insert_eq in Hd; injection Hd as <-
  end.
  match goal with
  | Hty : file_type _ = "video/mp4" |- _ => rewrite Hty
  end.
  eexists _, _, _. split; [reflexivity|]. split; [eassumption|].
  split; [assumption|]. cbn [bucket body].
  split; [apply lookup_insert_eq|].
  split; [eapply find_after_update; [eassumption|reflexivity]|reflexivity].
Qed.

(** The later video handler kept the checks of the earlier one: a request
    that one of them refuses before doing anything is refused by the other
    with the same error. *)
Theorem video_handlers_same_refusals cfg req env w e w' :
  VideosDirect.handlerUploadVideo cfg req env w = (Err e, w', []) <->
  Videos.handlerUploadVideo cfg req env w = (Err e, w', []).
Proof.
  split; intros Hrun.
  - enough (Hall : forall r w' l,
              VideosDirect.handlerUploadVideo cfg req env w = (r, w', l) ->
              forall e, r = Err e -> l = [] ->
              Videos.handlerUploadVideo cfg req env w = (Err e, w', []))
      by (eapply Hall; [exact Hrun|reflexivity..]).
    clear Hrun. by_run.
    unfold VideosDirect.handlerUploadVideo; repeat (wp_step; prune).
    all: intros e' [= <-] Hl; try discriminate Hl.
    all: change VideosDirect.MAX_UPLOAD_SIZE with Videos.MAX_UPLOAD_SIZE in *.
    all: destruct (Videos.handlerUploadVideo cfg req env w)
           as [[r2 w2] l2] eqn:Hrun2.
    all: revert r2 w2 l2 Hrun2; by_run; wp_run_pruning; reflexivity.
  - enough (Hall : forall r w' l,
              Videos.handlerUploadVideo cfg req env w = (r, w', l) ->
              forall e, r = Err e -> l = [] ->
              VideosDirect.handlerUploadVideo cfg req env w = (Err e, w', []))
      by (eapply Hall; [exact Hrun|reflexivity..]).
    clear Hrun. by_run.
    unfold Videos.handlerUploadVideo; repeat (wp_step; prune).
    all: intros e' [= <-] Hl; try discriminate Hl.
    all: change Videos.MAX_UPLOAD_SIZE with VideosDirect.MAX_UPLOAD_SIZE in *.
    all: destruct (VideosDirect.handlerUploadVideo cfg req env w)
           as [[r2 w2] l2] eqn:Hrun2.
    all: revert r2 w2 l2 Hrun2; by_run; wp_run_pruning; reflexivity.
Qed.
End Aftermath.

(** ** Examples for the properties above *)

Lemma other_records_untouched_witness :
  List.map id
    (db (Videos.handlerUploadVideo (H := demo_collaborators) demo_cfg
           demo_video_request demo_env demo_world).1.2)
  = List.map id (db demo_world).
Proof.
  exact (proj1 (@other_records_untouched demo_collaborators
                  Videos.handlerUploadVideo demo_cfg demo_video_request
                  demo_env demo_world _ _ _
                  (or_intror (or_introl eq_refl)) (outcome_eta _))).
Defined.

Lemma store_footprint_witness :
  bucket
    (ThumbnailsDisk.handlerUploadThumbnail (H := demo_collaborators) demo_cfg
       demo_thumbnail_request demo_env demo_world).1.2
  = bucket demo_world.
Proof.
  exact (proj1 (proj1 (@store_footprint demo_collaborators demo_cfg
                         demo_thumbnail_request demo_env demo_world)
                  _ _ _ (outcome_eta _))).
Defined.

Lemma update_is_last_witness :
  exists v,
    last (Videos.handlerUploadVideo (H := demo_collaborators) demo_cfg
            demo_video_request demo_env demo_world).2
    = Some (EvUpdateVideo v).
Proof.
  eassert (Hr : (Videos.handlerUploadVideo (H := demo_collaborators) demo_cfg
                   demo_video_request demo_env demo_world).1.1 = Ok _)
    by (vm_compute; reflexivity).
  exact (proj2 (@update_is_last demo_collaborators Videos.handlerUploadVideo
                  demo_cfg demo_video_request demo_env demo_world _ _ _
                  (or_intror (or_introl eq_refl)) (outcome_eta _)) _ Hr).
Defined.

Lemma failed_request_keeps_store_witness :
  db (ThumbnailsDisk.handlerUploadThumbnail (H := demo_collaborators) demo_cfg
        demo_thumbnail_request (demo_env_rejecting updates_fail)
        demo_world).1.2
  = db demo_world.
Proof.
  eassert (Hr : (ThumbnailsDisk.handlerUploadThumbnail
                   (H := demo_collaborators) demo_cfg demo_thumbnail_request
                   (demo_env_rejecting updates_fail) demo_world).1.1 = Err _)
    by (vm_compute; reflexivity).
  exact (@failed_request_keeps_store demo_collaborators
           ThumbnailsDisk.handlerUploadThumbnail demo_cfg
           demo_thumbnail_request (demo_env_rejecting updates_fail)
           demo_world _ _ _
           (or_intror (or_intror (or_introl eq_refl))) (outcome_err _ _ Hr)).
Defined.

Lemma orphaned_upload_witness :
  exists key,
    is_Some
      (bucket (Videos.handlerUploadVideo (H := demo_collaborators) demo_cfg
                 demo_video_request (demo_env_rejecting deletions_fail)
                 demo_world).1.2 !! key) /\
    db (Videos.handlerUploadVideo (H := demo_collaborators) demo_cfg
          demo_video_request (demo_env_rejecting deletions_fail)
          demo_world).1.2 = db demo_world.
Proof.
  eassert (Hr : (Videos.handlerUploadVideo (H := demo_collaborators) demo_cfg
                   demo_video_request (demo_env_rejecting deletions_fail)
                   demo_world).1.1 = Err _)
    by (vm_compute; reflexivity).
  eassert (Hd : In (EvDelete _)
                  (Videos.handlerUploadVideo (H := demo_collaborators)
                     demo_cfg demo_video_request
                     (demo_env_rejecting deletions_fail) demo_world).2)
    by (vm_compute; do 4 right; left; reflexivity).
  destruct (@orphaned_upload demo_collaborators Videos.handlerUploadVideo
              demo_cfg demo_video_request (demo_env_rejecting deletions_fail)
              demo_world _ _ _ _ (or_intror (or_introl eq_refl))
              (outcome_err _ _ Hr) Hd) as (key & ty & _ & Hb & Hdb).
  exists key. by split.
Defined.

Lemma thumbnail_kept_on_failure_witness :
  videoThumbnails
    (ThumbnailsMemory.handlerUploadThumbnail (H := demo_collaborators)
       demo_cfg demo_thumbnail_request (demo_env_rejecting updates_fail)
       demo_world).1.2 !! "V"
  = Some (mkThumbnail (file_data (demo_png 2048)) "image/png").
Proof.
  eassert (Hr : (ThumbnailsMemory.handlerUploadThumbnail
                   (H := demo_collaborators) demo_cfg demo_thumbnail_request
                   (demo_env_rejecting updates_fail) demo_world).1.1 = Err _)
    by (vm_compute; reflexivity).
  eassert (Hk : In (EvThumbnailSet "V")
                  (ThumbnailsMemory.handlerUploadThumbnail
                     (H := demo_collaborators) demo_cfg
                     demo_thumbnail_request (demo_env_rejecting updates_fail)
                     demo_world).2)
    by (vm_compute; left; reflexivity).
  destruct (@thumbnail_kept_on_failure demo_collaborators demo_cfg
              demo_thumbnail_request (demo_env_rejecting updates_fail)
              demo_world _ _ _ _ (outcome_err _ _ Hr) Hk)
    as (f & Hc & Hm & _).
  injection Hc as <-. exact Hm.
Defined.

Lemma direct_upload_object_witness :
  exists key,
    bucket (VideosDirect.handlerUploadVideo (H := demo_collaborators)
              demo_cfg demo_video_request demo_env demo_world).1.2 !! key
    = Some (mkS3Object (file_data (demo_mp4 2048)) "video/mp4").
Proof.
  eassert (Hr : (VideosDirect.handlerUploadVideo (H := demo_collaborators)
                   demo_cfg demo_video_request demo_env demo_world).1.1
                = Ok _)
    by (vm_compute; reflexivity).
  destruct (@direct_upload_object demo_collaborators demo_cfg
              demo_video_request demo_env demo_world _ _ _
              (outcome_ok _ _ Hr))
    as (rnd & f & v & _ & Hc & _ & Hb & _).
  injection Hc as <-. eexists. exact Hb.
Defined.

Lemma video_handlers_same_refusals_witness :
  Videos.handlerUploadVideo (H := demo_collaborators) demo_cfg
    (demo_request "V" "U2" [("video", FormFile (demo_mp4 2048))])
    demo_env demo_world
  = (Err (UserForbiddenError "Forbidden"), demo_world, []).
Proof.
  apply (proj1 (@video_handlers_same_refusals demo_collaborators demo_cfg
                  (demo_request "V" "U2"
                     [("video", FormFile (demo_mp4 2048))])
                  demo_env demo_world _ _)).
  reflexivity.
Defined.

(** ** Thumbnail URLs *)

(** The disk variant answers with the URL of the file it wrote: the file is
    in the asset directory under [<name>.<ext>] with the uploaded bytes,
    [<ext>] is [png] or [jpeg] as declared, and the URL is
    [http://localhost:8091/assets/<name>.<ext>] whatever the configured
    port. *)
Theorem thumbnail_disk_url_format `{Collaborators} cfg req env w resp w' l :
  ThumbnailsDisk.handlerUploadThumbnail cfg req env w = (Ok resp, w', l) ->
  exists rnd f ext v,
    randomBytes 32 env w = (Ok rnd, w, []) /\
    carries req "thumbnail" f /\
    file_type f = "image/" +:+ ext /\ (ext = "png" \/ ext = "jpeg") /\
    disk w' !! path_join (assetsRoot cfg) (to_base64url rnd +:+ "." +:+ ext)
    = Some (file_data f) /\
    body resp = Some v /\
    thumbnailURL v
    = Some ("http://localhost:8091/assets/" +:+ to_base64url rnd
              +:+ "." +:+ ext).
Proof. intros Hrun. by eapply thumbnail_disk_url. Qed.

Lemma thumbnail_disk_url_format_witness :
  exists v name ext,
    thumbnailURL v
    = Some ("http://localhost:8091/assets/" +:+ name +:+ "." +:+ ext) /\
    (ext = "png" \/ ext = "jpeg").
Proof.
  eassert (Hr : (ThumbnailsDisk.handlerUploadThumbnail
                   (H := demo_collaborators) demo_cfg demo_thumbnail_request
                   demo_env demo_world).1.1 = Ok _)
    by (vm_compute; reflexivity).
  destruct (@thumbnail_disk_url_format demo_collaborators demo_cfg
              demo_thumbnail_request demo_env demo_world _ _ _
              (outcome_ok _ _ Hr))
    as (rnd & f & ext & v & _ & _ & _ & Hext & _ & _ & Hurl).
  exists v, (to_base64url rnd), ext. split; [exact Hurl|exact Hext].
Defined.

(** The in-memory variant stores bytes and declared type under the video id
    and answers with [http://localhost:<port>/api/thumbnails/<videoId>], the
    port being the configured one. *)
Theorem thumbnail_memory_url_format `{Collaborators}
    cfg req env w resp w' l :
  ThumbnailsMemory.handlerUploadThumbnail cfg req env w = (Ok resp, w', l) ->
  exists vid f v,
    params_videoId req = Some vid /\
    carries req "thumbnail" f /\
    videoThumbnails w' !! vid
    = Some (mkThumbnail (file_data f) (file_type f)) /\
    body resp = Some v /\
    thumbnailURL v
    = Some ("http://localhost:" +:+ port cfg +:+ "/api/thumbnails/" +:+ vid).
Proof. intros Hrun. by eapply thumbnail_memory_url. Qed.

Lemma thumbnail_memory_url_format_witness :
  exists v,
    thumbnailURL v
    = Some ("http://localhost:" +:+ "3000" +:+ "/api/thumbnails/" +:+ "V").
Proof.
  eassert (Hr : (ThumbnailsMemory.handlerUploadThumbnail
                   (H := demo_collaborators) demo_cfg demo_thumbnail_request
                   demo_env demo_world).1.1 = Ok _)
    by (vm_compute; reflexivity).
  destruct (@thumbnail_memory_url_format demo_collaborators demo_cfg
              demo_thumbnail_request demo_env demo_world _ _ _
              (outcome_ok _ _ Hr))
    as (vid & f & v & Hp & _ & _ & _ & Hurl).
  injection Hp as <-. exists v. exact Hurl.
Defined.

(** ** The external tools *)

(** When the probe exits with a code other than 0, [getVideoAspectRatio]
    fails with [Failed to get video info: ] followed by what the probe wrote
    on standard error; its standard output is not looked at. *)
Theorem aspect_ratio_probe_failure env w filePath :
  exitCode (probe_of env w filePath) <> 0 ->
  (Videos.getVideoAspectRatio filePath env w).1.1
  = Err (Error ("Failed to get video info: "
                  +:+ stderr_text (probe_of env w filePath))) /\
  (Videos.getVideoAspectRatio filePath env w).2
  = [EvSpawn ["ffprobe"; "-v"; "error"; "-select_streams"; "v:0";
              "-show_entries"; "stream=width,height"; "-of"; "json";
              "-show_streams"; filePath]].
Proof.
  intros Hne. split; [by apply probe_failed|].
  unfold Videos.getVideoAspectRatio.
  apply (wp_bind env w (Bun_spawn _) _ (fun _ _ l => l = _)).
  apply wp_Bun_spawn. cbv beta iota. apply wp_throw_if; intros Hc.
  - reflexivity.
  - apply negb_false_iff, Z.eqb_eq in Hc. contradiction.
Qed.

Lemma aspect_ratio_probe_failure_witness :
  (Videos.getVideoAspectRatio "/srv/assets/a.mp4" demo_env_unreadable
     demo_world).1.1
  = Err (Error ("Failed to get video info: "
                  +:+ "Invalid data found when processing input")).
Proof.
  refine (proj1 (aspect_ratio_probe_failure demo_env_unreadable demo_world
                   "/srv/assets/a.mp4" _)).
  vm_compute. discriminate.
Defined.

(** [processVideoForFastStart] starts one process, the remux of its input
    into [<input>.processed]; it returns that path exactly when the process
    exits with 0, without looking for the file, and otherwise fails with
    [Failed to process video: ] followed by the standard error text. *)
Theorem remux_outcome env w inputFilePath :
  (forall p,
     (Videos.processVideoForFastStart inputFilePath env w).1.1 = Ok p <->
     exitCode (remux_of env w inputFilePath) = 0 /\
     p = inputFilePath +:+ ".processed") /\
  (forall e,
     (Videos.processVideoForFastStart inputFilePath env w).1.1 = Err e <->
     exitCode (remux_of env w inputFilePath) <> 0 /\
     e = Error ("Failed to process video: "
                  +:+ stderr_text (remux_of env w inputFilePath))) /\
  (Videos.processVideoForFastStart inputFilePath env w).2
  = [EvSpawn ["ffmpeg"; "-i"; inputFilePath; "-movflags"; "faststart";
              "-map_metadata"; "0"; "-codec"; "copy"; "-f"; "mp4";
              inputFilePath +:+ ".processed"]].
Proof.
  unfold Videos.processVideoForFastStart.
  apply (wp_bind env w (Bun_spawn _) _ (fun r _ l =>
           (forall p, r = Ok p <-> _) /\ (forall e, r = Err e <-> _) /\ l = _)).
  apply wp_Bun_spawn. cbv beta iota. fold (remux_of env w inputFilePath).
  apply wp_throw_if; intros Hc.
  - apply negb_true_iff, Z.eqb_neq in Hc. split; [|split; [|reflexivity]].
    + intros p. split; [discriminate|]. intros [He _]. contradiction.
    + intros e. split; [intros [= <-]; by split|]. by intros [_ ->].
  - apply negb_false_iff, Z.eqb_eq in Hc. apply wp_ret.
    split; [|split; [|reflexivity]].
    + intros p. split; [intros [= <-]; by split|]. by intros [_ ->].
    + intros e. split; [discriminate|]. intros [He _]. contradiction.
Qed.

(** ** The aspect ratio of whole-pixel sizes *)

Lemma all_upto_spec n P :
  all_upto n P = true -> forall k, 1 <= k <= Z.of_nat n -> P k = true.
Proof.
  induction n as [|n IH]; intros Hall k Hk; [lia|].
  cbn [all_upto] in Hall. apply andb_true_iff in Hall as [Hn Hrest].
  destruct (Z.eq_dec k (Z.of_nat (S n))) as [->|Hne]; [exact Hn|].
  apply IH; [exact Hrest|lia].
Qed.

(** For whole-pixel sizes the floating-point quotient decides as exact
    arithmetic does at both bounds: for every k from 1 to 1000, 17k by 10k
    is landscape and one pixel narrower is not, 3k by 5k is portrait and one
    pixel wider is not. *)
Theorem aspect_ratio_exact_multiples k :
  1 <= k <= 1000 ->
  Videos.classify (of_pixels (17 * k) / of_pixels (10 * k)) = Landscape /\
  Videos.classify (of_pixels (17 * k - 1) / of_pixels (10 * k)) = Other /\
  Videos.classify (of_pixels (3 * k) / of_pixels (5 * k)) = Portrait /\
  Videos.classify (of_pixels (3 * k + 1) / of_pixels (5 * k)) = Other.
Proof.
  intros Hk.
  assert (Hall : all_upto 1000 (fun k =>
            AspectRatio_eqb
              (Videos.classify (of_pixels (17 * k) / of_pixels (10 * k)))
              Landscape &&
            AspectRatio_eqb
              (Videos.classify (of_pixels (17 * k - 1) / of_pixels (10 * k)))
              Other &&
            AspectRatio_eqb
              (Videos.classify (of_pixels (3 * k) / of_pixels (5 * k)))
              Portrait &&
            AspectRatio_eqb
              (Videos.classify (of_pixels (3 * k + 1) / of_pixels (5 * k)))
              Other) = true)
    by (vm_compute; reflexivity).
  pose proof (all_upto_spec _ _ Hall k Hk) as Hcheck. cbv beta in Hcheck.
  apply andb_true_iff in Hcheck as [Hcheck H4].
  apply andb_true_iff in Hcheck as [Hcheck H3].
  apply andb_true_iff in Hcheck as [H1 H2].
  assert (Heq : forall a b, AspectRatio_eqb a b = true -> a = b)
    by (intros [] []; done).
  by repeat split; apply Heq.
Qed.

Lemma aspect_ratio_exact_multiples_witness :
  Videos.classify (of_pixels 1700 / of_pixels 1000) = Landscape /\
  Videos.classify (of_pixels 1699 / of_pixels 1000) = Other.
Proof.
  destruct (aspect_ratio_exact_multiples 100 ltac:(lia)) as (H1 & H2 & _).
  split; [exact H1|exact H2].
Defined.

(** A successful upload through the later video handler ran both tools on
    the temporary file it had just written, the probe first, and the remux
    from that file into [<file>.processed], which is the file it uploaded
    from and deleted second. *)
Theorem transcode_pipeline `{Collaborators} cfg req env w resp w' l :
  Videos.handlerUploadVideo cfg req env w = (Ok resp, w', l) ->
  exists tmp key ty v,
    l = [EvBunWrite tmp;
         EvSpawn ["ffprobe"; "-v"; "error"; "-select_streams"; "v:0";
                  "-show_entries"; "stream=width,height"; "-of"; "json";
                  "-show_streams"; tmp];
         EvSpawn ["ffmpeg"; "-i"; tmp; "-movflags"; "faststart";
                  "-map_metadata"; "0"; "-codec"; "copy"; "-f"; "mp4";
                  tmp +:+ ".processed"];
         EvS3Write key ty; EvDelete tmp; EvDelete (tmp +:+ ".processed");
         EvUpdateVideo v].
Proof.
  intros Hrun.
  enough (Hall : forall r w' l,
            Videos.handlerUploadVideo cfg req env w = (r, w', l) ->
            forall resp, r = Ok resp ->
            exists tmp key ty v,
              l = [EvBunWrite tmp;
                   EvSpawn ["ffprobe"; "-v"; "error"; "-select_streams";
                            "v:0"; "-show_entries"; "stream=width,height";
                            "-of"; "json"; "-show_streams"; tmp];
                   EvSpawn ["ffmpeg"; "-i"; tmp; "-movflags"; "faststart";
                            "-map_metadata"; "0"; "-codec"; "copy"; "-f";
                            "mp4"; tmp +:+ ".processed"];
                   EvS3Write key ty; EvDelete tmp;
                   EvDelete (tmp +:+ ".processed"); EvUpdateVideo v])
    by (eapply Hall; [exact Hrun|reflexivity]).
  clear Hrun. by_run. wp_run_pruning.
  all: intros resp' [=].
  eexists _, _, _, _. reflexivity.
Qed.

Lemma transcode_pipeline_witness :
  exists tmp,
    In (EvDelete (tmp +:+ ".processed"))
       (Videos.handlerUploadVideo (H := demo_collaborators) demo_cfg
          demo_video_request demo_env demo_world).2.
Proof.
  eassert (Hr : (Videos.handlerUploadVideo (H := demo_collaborators) demo_cfg
                   demo_video_request demo_env demo_world).1.1 = Ok _)
    by (vm_compute; reflexivity).
  destruct (@transcode_pipeline demo_collaborators demo_cfg
              demo_video_request demo_env demo_world _ _ _
              (outcome_ok _ _ Hr)) as (tmp & key & ty & v & Hl).
  exists tmp. rewrite Hl. do 5 right. left. reflexivity.
Defined.
